(** * A proof-of-work ledger: blockchain.py and node.py, embedded and verified

    The development follows the two Python modules of the repository:
    [blockchain.py] (classes [Transaction], [Block], [Blockchain]) and the
    consensus part of [node.py] ([receive_block], [resolve_conflicts]).

    - Python [str] values are Rocq strings whose characters are the code
      points 0..255.
    - Python numbers (amounts, timestamps, the mining reward) are kept
      behind the interface [PyNumber]: the ledger only ever uses the
      literal 0, [+], [-], [<], truthiness and the two text renderings,
      so every general theorem holds for floats and for ints alike.  The
      instance for [Z] is Python's [int].
    - [hashlib.sha256] and [json.dumps(..., sort_keys=True)] are
      implemented, so that hashes compute.
    - [time.time()] is an input: each function that reads the clock takes
      the value(s) read as arguments.
    - The proof-of-work [while] loop takes fuel; running out of fuel is a
      separate outcome and never stands for a result.
    - Calls run one after the other (the lock is not modelled), and lists
      are values: a list object that a caller keeps after handing it to
      [replace_chain], and mutates later, is outside the model. *)

From Stdlib Require Import ZArith NArith String Ascii List Bool Lia.
From stdpp Require Import base option list gmap strings pretty.
Import ListNotations.

Local Open Scope string_scope.
Local Open Scope list_scope.

(* ===================================================================== *)
(** ** hashlib.sha256(...).hexdigest() *)
(* ===================================================================== *)

Module SHA256.
Local Open Scope N_scope.

Definition w32 (x : N) : N := N.land x 0xFFFFFFFF.
Definition add32 (x y : N) : N := w32 (x + y).
Definition rotr (n x : N) : N :=
  N.lor (N.shiftr x n) (w32 (N.shiftl x (32 - n))).
Definition not32 (x : N) : N := N.lxor x 0xFFFFFFFF.

Definition Ch (x y z : N) : N := N.lxor (N.land x y) (N.land (not32 x) z).
Definition Maj (x y z : N) : N :=
  N.lxor (N.lxor (N.land x y) (N.land x z)) (N.land y z).
Definition Sigma0 (x : N) : N :=
  N.lxor (N.lxor (rotr 2 x) (rotr 13 x)) (rotr 22 x).
Definition Sigma1 (x : N) : N :=
  N.lxor (N.lxor (rotr 6 x) (rotr 11 x)) (rotr 25 x).
Definition sigma0 (x : N) : N :=
  N.lxor (N.lxor (rotr 7 x) (rotr 18 x)) (N.shiftr x 3).
Definition sigma1 (x : N) : N :=
  N.lxor (N.lxor (rotr 17 x) (rotr 19 x)) (N.shiftr x 10).

(** The constants, as FIPS 180-4 defines them: the first 32 bits of the
    fractional parts of the cube roots (for [K]) and of the square roots
    (for [H0]) of the first primes. *)
Definition primes : list N :=
  [2; 3; 5; 7; 11; 13; 17; 19; 23; 29; 31; 37; 41; 43; 47; 53; 59; 61; 67;
   71; 73; 79; 83; 89; 97; 101; 103; 107; 109; 113; 127; 131; 137; 139; 149;
   151; 157; 163; 167; 173; 179; 181; 191; 193; 197; 199; 211; 223; 227; 229;
   233; 239; 241; 251; 257; 263; 269; 271; 277; 281; 283; 293; 307; 311].

(** The integer cube root of [n], found bit by bit below [2 ^ bits]. *)
Fixpoint cbrt_bits (bits : nat) (n r : N) : N :=
  match bits with
  | O => r
  | S bits' =>
      let r' := r + N.shiftl 1 (N.of_nat bits') in
      cbrt_bits bits' n (if r' * r' * r' <=? n then r' else r)
  end.

Definition frac_cbrt (p : N) : N := w32 (cbrt_bits 36 (N.shiftl p 96) 0).
Definition frac_sqrt (p : N) : N := w32 (N.sqrt (N.shiftl p 64)).

Definition K : list N := Eval vm_compute in map frac_cbrt primes.

(** The eight working words. *)
Record state : Type :=
  State { wa : N; wb : N; wc : N; wd : N; we : N; wf : N; wg : N; wh : N }.

Definition H0 : state :=
  Eval vm_compute in
    State (frac_sqrt 2) (frac_sqrt 3) (frac_sqrt 5) (frac_sqrt 7)
          (frac_sqrt 11) (frac_sqrt 13) (frac_sqrt 17) (frac_sqrt 19).

(** One of the 64 rounds.  [w] is the window W[t], ..., W[t+15] of the
    message schedule; the round consumes W[t] and appends W[t+16]. *)
Definition round (sw : state * list N) (k : N) : state * list N :=
  let '(State a b c d e f g h, w) := sw in
  let wt := nth 0 w 0 in
  let t1 := add32 (add32 (add32 (add32 h (Sigma1 e)) (Ch e f g)) k) wt in
  let t2 := add32 (Sigma0 a) (Maj a b c) in
  let wn := add32 (add32 (add32 (sigma1 (nth 14 w 0)) (nth 9 w 0))
                         (sigma0 (nth 1 w 0))) wt in
  (State (add32 t1 t2) a b c (add32 d t1) e f g, (tl w ++ [wn])%list).

Definition compress (s : state) (w : list N) : state :=
  let '(State a b c d e f g h) := fst (fold_left round K (s, w)) in
  State (add32 (wa s) a) (add32 (wb s) b) (add32 (wc s) c) (add32 (wd s) d)
        (add32 (we s) e) (add32 (wf s) f) (add32 (wg s) g) (add32 (wh s) h).

(** The [n] low bytes of [x], most significant first. *)
Fixpoint be_bytes (n : nat) (x : N) : list N :=
  match n with
  | O => []
  | S n' => N.land (N.shiftr x (8 * N.of_nat n')) 0xFF :: be_bytes n' x
  end.

Definition pad (msg : list N) : list N :=
  let len := N.of_nat (length msg) in
  let zeros := N.to_nat ((119 - len mod 64) mod 64) in
  (msg ++ [0x80] ++ repeat 0 zeros ++ be_bytes 8 (8 * len))%list.

Fixpoint words (n : nat) (bs : list N) : list N :=
  match n, bs with
  | S n', b0 :: b1 :: b2 :: b3 :: rest =>
      (N.shiftl b0 24 + N.shiftl b1 16 + N.shiftl b2 8 + b3) :: words n' rest
  | _, _ => []
  end.

Fixpoint blocks (n : nat) (s : state) (bs : list N) : state :=
  match n with
  | O => s
  | S n' => blocks n' (compress s (words 16 (firstn 64 bs))) (skipn 64 bs)
  end.

Definition digest (msg : list N) : state :=
  let p := pad msg in blocks (Nat.div (length p) 64) H0 p.

Definition hexchar (x : N) : ascii :=
  ascii_of_N (if x <? 10 then 48 + x else 87 + x).

Definition nibble (w : N) (i : N) : ascii :=
  hexchar (N.land (N.shiftr w (4 * i)) 15).

Definition hex8 (w : N) : string :=
  String (nibble w 7) (String (nibble w 6) (String (nibble w 5)
 (String (nibble w 4) (String (nibble w 3) (String (nibble w 2)
 (String (nibble w 1) (String (nibble w 0) EmptyString))))))).

Definition hexdigest (msg : list N) : string :=
  let '(State a b c d e f g h) := digest msg in
  hex8 a +:+ hex8 b +:+ hex8 c +:+ hex8 d +:+
  hex8 e +:+ hex8 f +:+ hex8 g +:+ hex8 h.

End SHA256.

(* ===================================================================== *)
(** ** Python strings: str.encode(), str.startswith, str * int *)
(* ===================================================================== *)

Module Py.

(** [s.encode()]: UTF-8 of the code points 0..255. *)
Fixpoint encode (s : string) : list N :=
  match s with
  | EmptyString => []
  | String c rest =>
      let n := N_of_ascii c in
      ((if (n <? 128)%N then [n]
        else [(192 + n / 64)%N; (128 + n mod 64)%N]) ++ encode rest)%list
  end.

(** [hashlib.sha256(s.encode()).hexdigest()] *)
Definition sha256_hexdigest (s : string) : string :=
  SHA256.hexdigest (encode s).

(** [s.startswith(p)] *)
Definition startswith (s p : string) : bool := String.prefix p s.

(** [s * n] ; a count below 1 gives the empty string. *)
Fixpoint str_repeat (s : string) (n : nat) : string :=
  match n with
  | O => ""
  | S n' => s +:+ str_repeat s n'
  end.

Definition str_mul (s : string) (n : Z) : string := str_repeat s (Z.to_nat n).

(** [bool(s)] for a string *)
Definition str_bool (s : string) : bool :=
  match s with EmptyString => false | _ => true end.

(** [x or y] for an optional string ([None] and [""] are falsy). *)
Definition str_or (x : option string) (y : string) : string :=
  match x with
  | Some s => if str_bool s then s else y
  | None => y
  end.

End Py.

(* ===================================================================== *)
(** ** json.dumps, as far as [Block.calculate_hash] uses it *)
(* ===================================================================== *)

Module Json.

Definition dq : string := String "034"%char EmptyString.
Definition bs : string := String "092"%char EmptyString.

Definition hex4 (n : N) : string :=
  String (SHA256.nibble n 3) (String (SHA256.nibble n 2)
 (String (SHA256.nibble n 1) (String (SHA256.nibble n 0) EmptyString))).

(** The encoder with [ensure_ascii=True]: the quote, the backslash and
    everything outside [' '..'~'] are escaped. *)
Definition escape (c : ascii) : string :=
  let n := N_of_ascii c in
  if (n =? 92)%N then bs +:+ bs
  else if (n =? 34)%N then bs +:+ dq
  else if (n =? 8)%N then bs +:+ "b"
  else if (n =? 12)%N then bs +:+ "f"
  else if (n =? 10)%N then bs +:+ "n"
  else if (n =? 13)%N then bs +:+ "r"
  else if (n =? 9)%N then bs +:+ "t"
  else if ((32 <=? n) && (n <=? 126))%N then String c EmptyString
  else bs +:+ "u" +:+ hex4 n.

Fixpoint escape_all (s : string) : string :=
  match s with
  | EmptyString => ""
  | String c rest => escape c +:+ escape_all rest
  end.

Definition str (s : string) : string := dq +:+ escape_all s +:+ dq.

Definition int (n : Z) : string := pretty n.

(** ["key": value] *)
Definition member (key value : string) : string := str key +:+ ": " +:+ value.

Fixpoint join (sep : string) (items : list string) : string :=
  match items with
  | [] => ""
  | [x] => x
  | x :: rest => x +:+ sep +:+ join sep rest
  end.

Definition object (members : list string) : string :=
  "{" +:+ join ", " members +:+ "}".

Definition array (items : list string) : string :=
  "[" +:+ join ", " items +:+ "]".

End Json.

(* ===================================================================== *)
(** ** Python numbers *)
(* ===================================================================== *)

(** What the ledger asks of an amount or a timestamp. *)
Class PyNumber (num : Type) : Type := {
  num_zero : num;                 (* the literal 0 of [dict.get(k, 0)] *)
  num_add : num -> num -> num;    (* x + y *)
  num_sub : num -> num -> num;    (* x - y *)
  num_lt : num -> num -> bool;    (* x < y *)
  num_bool : num -> bool;         (* truthiness, for [x or y] *)
  num_str : num -> string;        (* str(x), as an f-string formats it *)
  num_json : num -> string        (* the token json.dumps writes *)
}.

(** Python's [int]. *)
#[export] Instance PyInt : PyNumber Z := {
  num_zero := 0%Z;
  num_add := Z.add;
  num_sub := Z.sub;
  num_lt := Z.ltb;
  num_bool := fun x => negb (Z.eqb x 0);
  num_str := pretty;
  num_json := pretty
}.

(** [x or y] for an optional number ([None] and zero are falsy). *)
Definition num_or {num : Type} `{PyNumber num} (x : option num) (y : num) : num :=
  match x with
  | Some v => if num_bool v then v else y
  | None => y
  end.

(* ===================================================================== *)
(** ** class Transaction *)
(* ===================================================================== *)

Module Transaction.

Record t (num : Type) : Type := mk {
  sender : string;
  recipient : string;
  amount : num;
  timestamp : num;
  txid : string
}.
Arguments mk {num} _ _ _ _ _.
Arguments sender {num} _.
Arguments recipient {num} _.
Arguments amount {num} _.
Arguments timestamp {num} _.
Arguments txid {num} _.

(** The request body of POST /transactions/new and the transaction
    entries of a block on the wire ([TransactionModel]). *)
Record model (num : Type) : Type := mk_model {
  m_sender : string;
  m_recipient : string;
  m_amount : num;
  m_timestamp : option num;
  m_txid : option string
}.
Arguments mk_model {num} _ _ _ _ _.
Arguments m_sender {num} _.
Arguments m_recipient {num} _.
Arguments m_amount {num} _.
Arguments m_timestamp {num} _.
Arguments m_txid {num} _.

Section WithNumbers.
Context {num : Type} `{PyNumber num}.

(** [calculate_txid], from the four fields it reads. *)
Definition calculate_txid (sender recipient : string) (amount timestamp : num)
  : string :=
  Py.sha256_hexdigest (sender +:+ recipient +:+ num_str amount +:+ num_str timestamp).

(** [Transaction(sender, recipient, amount, timestamp, txid)].  [now] is
    what [time.time()] returns if the constructor calls it. *)
Definition new (now : num) (sender recipient : string) (amount : num)
    (timestamp : option num) (txid : option string) : t num :=
  let ts := num_or timestamp now in
  mk sender recipient amount ts
     (Py.str_or txid (calculate_txid sender recipient amount ts)).

(** The JSON text of [to_dict()] under [sort_keys=True]. *)
Definition to_json (tx : t num) : string :=
  Json.object
    [ Json.member "amount" (num_json (amount tx));
      Json.member "recipient" (Json.str (recipient tx));
      Json.member "sender" (Json.str (sender tx));
      Json.member "timestamp" (num_json (timestamp tx));
      Json.member "txid" (Json.str (txid tx)) ].

Definition to_dict (tx : t num) : model num :=
  mk_model (sender tx) (recipient tx) (amount tx)
           (Some (timestamp tx)) (Some (txid tx)).

Definition from_dict (now : num) (data : model num) : t num :=
  new now (m_sender data) (m_recipient data) (m_amount data)
      (m_timestamp data) (m_txid data).

End WithNumbers.
End Transaction.

(* ===================================================================== *)
(** ** class Block *)
(* ===================================================================== *)

Module Block.

Record t (num : Type) : Type := mk {
  index : Z;
  timestamp : num;
  transactions : list (Transaction.t num);
  previous_hash : string;
  nonce : Z;
  hash : string
}.
Arguments mk {num} _ _ _ _ _ _.
Arguments index {num} _.
Arguments timestamp {num} _.
Arguments transactions {num} _.
Arguments previous_hash {num} _.
Arguments nonce {num} _.
Arguments hash {num} _.

(** A block on the wire ([BlockModel]; the entries of ["chain"] in a
    peer's answer to GET /chain). *)
Record model (num : Type) : Type := mk_model {
  m_index : Z;
  m_timestamp : num;
  m_transactions : list (Transaction.model num);
  m_previous_hash : string;
  m_nonce : Z;
  m_hash : string
}.
Arguments mk_model {num} _ _ _ _ _ _.
Arguments m_index {num} _.
Arguments m_timestamp {num} _.
Arguments m_transactions {num} _.
Arguments m_previous_hash {num} _.
Arguments m_nonce {num} _.
Arguments m_hash {num} _.

Section WithNumbers.
Context {num : Type} `{PyNumber num}.

(** The text [calculate_hash] digests. *)
Definition block_string (b : t num) : string :=
  Json.object
    [ Json.member "index" (Json.int (index b));
      Json.member "nonce" (Json.int (nonce b));
      Json.member "previous_hash" (Json.str (previous_hash b));
      Json.member "timestamp" (num_json (timestamp b));
      Json.member "transactions"
        (Json.array (map Transaction.to_json (transactions b))) ].

Definition calculate_hash (b : t num) : string :=
  Py.sha256_hexdigest (block_string b).

(** [Block(index, timestamp, transactions, previous_hash, nonce, hash_)]:
    [self.hash = hash_ or self.calculate_hash()]. *)
Definition new (index : Z) (timestamp : num)
    (transactions : list (Transaction.t num)) (previous_hash : string)
    (nonce : Z) (hash_ : option string) : t num :=
  let b := mk index timestamp transactions previous_hash nonce "" in
  mk index timestamp transactions previous_hash nonce
     (Py.str_or hash_ (calculate_hash b)).

(** [b.nonce += 1; b.hash = b.calculate_hash()] *)
Definition bump (b : t num) : t num :=
  let b1 := mk (index b) (timestamp b) (transactions b) (previous_hash b)
               (nonce b + 1) (hash b) in
  mk (index b1) (timestamp b1) (transactions b1) (previous_hash b1)
     (nonce b1) (calculate_hash b1).

Definition to_dict (b : t num) : model num :=
  mk_model (index b) (timestamp b) (map Transaction.to_dict (transactions b))
           (previous_hash b) (nonce b) (hash b).

(** [clk i] is the clock value the constructor of the [i]-th transaction
    reads, should it read the clock. *)
Definition from_dict (clk : nat -> num) (data : model num) : t num :=
  new (m_index data) (m_timestamp data)
      (imap (fun i tx => Transaction.from_dict (clk i) tx) (m_transactions data))
      (m_previous_hash data) (m_nonce data) (Some (m_hash data)).

End WithNumbers.
End Block.

(* ===================================================================== *)
(** ** How a call ends *)
(* ===================================================================== *)

Inductive exn : Type :=
  | IndexError
  | HTTPException (status_code : Z) (detail : string).

(** A call returns, raises, or is still in its loop when the fuel is
    spent. *)
Inductive outcome (A : Type) : Type :=
  | Returned (a : A)
  | Raised (e : exn)
  | OutOfFuel.
Arguments Returned {A} _.
Arguments Raised {A} _.
Arguments OutOfFuel {A}.

(* ===================================================================== *)
(** ** class Blockchain *)
(* ===================================================================== *)

Module Blockchain.

(** The attributes of a [Blockchain] object.  The lock is left out: calls
    are run one after the other. *)
Record t (num : Type) : Type := mk {
  chain : list (Block.t num);
  difficulty : Z;
  mining_reward : num;
  mempool : list (Transaction.t num);
  nodes : gset string;
  balances : gmap string num
}.
Arguments mk {num} _ _ _ _ _ _.
Arguments chain {num} _.
Arguments difficulty {num} _.
Arguments mining_reward {num} _.
Arguments mempool {num} _.
Arguments nodes {num} _.
Arguments balances {num} _.

(** The dictionary [to_dict()] builds and [from_dict(data)] reads.  The
    two keys [from_dict] reads with [data.get] may be absent. *)
Record model (num : Type) : Type := mk_model {
  m_chain : list (Block.model num);
  m_length : Z;
  m_difficulty : option Z;
  m_nodes : option (list string)
}.
Arguments mk_model {num} _ _ _ _.
Arguments m_chain {num} _.
Arguments m_length {num} _.
Arguments m_difficulty {num} _.
Arguments m_nodes {num} _.

Section WithNumbers.
Context {num : Type} `{PyNumber num}.

Definition create_genesis_block (now : num) : Block.t num :=
  Block.new 0 now [] "0" 0 None.

(** [Blockchain(difficulty, mining_reward)], the clock reading [now]. *)
Definition init (now : num) (difficulty : Z) (mining_reward : num) : t num :=
  mk [create_genesis_block now] difficulty mining_reward [] ∅ ∅.

(** [self.chain[-1]]; [None] stands for the IndexError on an empty list. *)
Definition get_last_block (self : t num) : option (Block.t num) :=
  last (chain self).

(** [balances.get(who, 0)] *)
Definition balance_of (balances : gmap string num) (who : string) : num :=
  default num_zero (balances !! who).

Definition add_transaction (transaction : Transaction.t num) (self : t num)
  : bool * t num :=
  let appended :=
    mk (chain self) (difficulty self) (mining_reward self)
       (mempool self ++ [transaction]) (nodes self) (balances self) in
  if negb (String.eqb (Transaction.sender transaction) "MINING")
  then
    let sender_balance :=
      balance_of (balances self) (Transaction.sender transaction) in
    if num_lt sender_balance (Transaction.amount transaction)
    then (false, self)
    else (true, appended)
  else (true, appended).

(** The body of the two balance loops (in [mine_block] and in
    [recalculate_balances]): the sender's entry is written first, then
    the recipient's. *)
Definition update_balances (balances : gmap string num)
    (tx : Transaction.t num) : gmap string num :=
  let balances :=
    if negb (String.eqb (Transaction.sender tx) "MINING")
    then <[Transaction.sender tx :=
             num_sub (balance_of balances (Transaction.sender tx))
                     (Transaction.amount tx)]> balances
    else balances in
  <[Transaction.recipient tx :=
      num_add (balance_of balances (Transaction.recipient tx))
              (Transaction.amount tx)]> balances.

(** [new_block.hash.startswith("0" * self.difficulty)] *)
Definition pow_done (difficulty : Z) (b : Block.t num) : bool :=
  Py.startswith (Block.hash b) (Py.str_mul "0" difficulty).

(** The proof-of-work loop; [fuel] bounds the number of iterations. *)
Fixpoint proof_of_work (fuel : nat) (difficulty : Z) (new_block : Block.t num)
  : option (Block.t num) :=
  if pow_done difficulty new_block then Some new_block
  else match fuel with
       | O => None
       | S fuel' => proof_of_work fuel' difficulty (Block.bump new_block)
       end.

(** [mine_block(miner_address)].  [t_reward] and [t_block] are the two
    clock readings, taken by the reward transaction and by the block. *)
Definition mine_block (fuel : nat) (t_reward t_block : num)
    (miner_address : string) (self : t num)
  : outcome (Block.t num * t num) :=
  let reward_tx :=
    Transaction.new t_reward "MINING" miner_address (mining_reward self)
                    None None in
  let transactions := mempool self ++ [reward_tx] in
  match get_last_block self with
  | None => Raised IndexError
  | Some last_block =>
      let new_block :=
        Block.new (Block.index last_block + 1) t_block transactions
                  (Block.hash last_block) 0 None in
      match proof_of_work fuel (difficulty self) new_block with
      | None => OutOfFuel
      | Some new_block =>
          Returned
            (new_block,
             mk (chain self ++ [new_block]) (difficulty self)
                (mining_reward self) []
                (nodes self)
                (fold_left update_balances transactions (balances self)))
      end
  end.

(** [chain or self.chain]: an absent or empty argument means the ledger's
    own chain. *)
Definition chain_or (chain : option (list (Block.t num))) (self : t num)
  : list (Block.t num) :=
  match chain with
  | Some (b :: rest) => b :: rest
  | _ => Blockchain.chain self
  end.

(** The loop of [validate_chain] over the indices it is given. *)
Fixpoint validate_loop (chain : list (Block.t num)) (indices : list nat)
  : bool :=
  match indices with
  | [] => true
  | i :: rest =>
      match chain !! i, chain !! (i - 1)%nat with
      | Some current, Some previous =>
          if negb (String.eqb (Block.previous_hash current) (Block.hash previous))
          then false
          else if negb (String.eqb (Block.hash current)
                                   (Block.calculate_hash current))
          then false
          else validate_loop chain rest
      | _, _ => false
      end
  end.

(** [validate_chain(chain)], with [for i in range(1, len(chain))]. *)
Definition validate_chain (chain : option (list (Block.t num))) (self : t num)
  : bool :=
  let chain := chain_or chain self in
  validate_loop chain (seq 1 (length chain - 1)).

(** The table [recalculate_balances] builds from a chain. *)
Definition replay (chain : list (Block.t num)) : gmap string num :=
  fold_left
    (fun balances block =>
       fold_left update_balances (Block.transactions block) balances)
    chain ∅.

Definition recalculate_balances (self : t num) : t num :=
  mk (chain self) (difficulty self) (mining_reward self) (mempool self)
     (nodes self) (replay (chain self)).

Definition replace_chain (new_chain : list (Block.t num)) (self : t num)
  : bool * t num :=
  if (length (chain self) <? length new_chain)%nat
     && validate_chain (Some new_chain) self
  then
    let self := mk new_chain (difficulty self) (mining_reward self)
                   (mempool self) (nodes self) (balances self) in
    let self := recalculate_balances self in
    (true,
     mk (chain self) (difficulty self) (mining_reward self) []
        (nodes self) (balances self))
  else (false, self).

Definition register_node (address : string) (self : t num) : t num :=
  mk (chain self) (difficulty self) (mining_reward self) (mempool self)
     ({[address]} ∪ nodes self) (balances self).

(** [to_dict()].  [list(self.nodes)] lists the set in an order Python
    does not fix; [elements] is one such order. *)
Definition to_dict (self : t num) : model num :=
  mk_model (map Block.to_dict (chain self))
           (Z.of_nat (length (chain self)))
           (Some (difficulty self))
           (Some (elements (nodes self))).

(** [Blockchain.from_dict(data)].  [now] is the clock reading of the
    constructor's genesis block, [default_mining_reward] the constructor's
    default (the literal 10.0), [clk j i] the reading for transaction [i]
    of block [j]. *)
Definition from_dict (now : num) (default_mining_reward : num)
    (clk : nat -> nat -> num) (data : model num) : t num :=
  let blockchain :=
    init now (default 4%Z (m_difficulty data)) default_mining_reward in
  let blockchain :=
    mk (imap (fun j b => Block.from_dict (clk j) b) (m_chain data))
       (difficulty blockchain) (mining_reward blockchain)
       (mempool blockchain) (nodes blockchain) (balances blockchain) in
  let blockchain :=
    mk (chain blockchain) (difficulty blockchain) (mining_reward blockchain)
       (mempool blockchain) (list_to_set (default [] (m_nodes data)))
       (balances blockchain) in
  recalculate_balances blockchain.

End WithNumbers.
End Blockchain.

(* ===================================================================== *)
(** ** node.py: receive_block and resolve_conflicts *)
(* ===================================================================== *)

Module Node.

(** A peer's answer to GET /chain, as far as [resolve_conflicts] reads it. *)
Record chain_response (num : Type) : Type := mk_response {
  r_length : Z;
  r_chain : list (Block.model num)
}.
Arguments mk_response {num} _ _.
Arguments r_length {num} _.
Arguments r_chain {num} _.

Section WithNumbers.
Context {num : Type} `{PyNumber num}.

(** POST /blocks/new.  [clk] feeds [Block.from_dict]. *)
Definition receive_block (clk : nat -> num) (block_data : Block.model num)
    (blockchain : Blockchain.t num) : outcome (string * Blockchain.t num) :=
  let block := Block.from_dict clk block_data in
  match Blockchain.get_last_block blockchain with
  | None => Raised IndexError
  | Some last_block =>
      if String.eqb (Block.previous_hash block) (Block.hash last_block)
         && String.eqb (Block.hash block) (Block.calculate_hash block)
      then
        let blockchain :=
          Blockchain.mk (Blockchain.chain blockchain ++ [block])
            (Blockchain.difficulty blockchain)
            (Blockchain.mining_reward blockchain)
            (Blockchain.mempool blockchain)
            (Blockchain.nodes blockchain)
            (Blockchain.balances blockchain) in
        let blockchain := Blockchain.recalculate_balances blockchain in
        Returned
          ("Block added",
           Blockchain.mk (Blockchain.chain blockchain)
             (Blockchain.difficulty blockchain)
             (Blockchain.mining_reward blockchain) []
             (Blockchain.nodes blockchain)
             (Blockchain.balances blockchain))
      else Raised (HTTPException 400 "Invalid block")
  end.

(** [[Block.from_dict(b) for b in data["chain"]]] *)
Definition chain_from_dicts (clk : nat -> nat -> num)
    (data : list (Block.model num)) : list (Block.t num) :=
  imap (fun j b => Block.from_dict (clk j) b) data.

(** One turn of the loop over the peers.  [None] is a peer whose request
    raised, whose status was not 200 or whose answer could not be decoded
    (the [except] clause): it changes nothing. *)
Definition scan_peer (blockchain : Blockchain.t num)
    (acc : Z * option (list (Block.t num)))
    (clk : nat -> nat -> num) (response : option (chain_response num))
  : Z * option (list (Block.t num)) :=
  let '(max_length, new_chain) := acc in
  match response with
  | None => acc
  | Some data =>
      let length := r_length data in
      let chain := chain_from_dicts clk (r_chain data) in
      if (max_length <? length)%Z
         && Blockchain.validate_chain (Some chain) blockchain
      then (length, Some chain)
      else acc
  end.

Fixpoint scan_peers (blockchain : Blockchain.t num) (i : nat)
    (clk : nat -> nat -> nat -> num)
    (responses : list (option (chain_response num)))
    (acc : Z * option (list (Block.t num)))
  : Z * option (list (Block.t num)) :=
  match responses with
  | [] => acc
  | r :: rest =>
      scan_peers blockchain (S i) clk rest (scan_peer blockchain acc (clk i) r)
  end.

(** [resolve_conflicts()]; [responses] holds one entry per known peer, in
    the order the loop visits them. *)
Definition resolve_conflicts (clk : nat -> nat -> nat -> num)
    (responses : list (option (chain_response num)))
    (blockchain : Blockchain.t num) : bool * Blockchain.t num :=
  let max_length := Z.of_nat (length (Blockchain.chain blockchain)) in
  let '(_, new_chain) :=
    scan_peers blockchain 0 clk responses (max_length, None) in
  match new_chain with
  | Some (b :: rest) =>
      (true, snd (Blockchain.replace_chain (b :: rest) blockchain))
  | _ => (false, blockchain)
  end.

(** GET /nodes/resolve *)
Definition consensus (clk : nat -> nat -> nat -> num)
    (responses : list (option (chain_response num)))
    (blockchain : Blockchain.t num)
  : (string * Blockchain.model num) * Blockchain.t num :=
  let '(replaced, blockchain) := resolve_conflicts clk responses blockchain in
  ((if replaced then "Chain replaced" else "Chain is authoritative",
    Blockchain.to_dict blockchain),
   blockchain).

(** GET /chain, and what [resolve_conflicts] reads of a peer's answer. *)
Definition get_chain (blockchain : Blockchain.t num) : Blockchain.model num :=
  Blockchain.to_dict blockchain.

Definition response_of (data : Blockchain.model num) : chain_response num :=
  mk_response (Blockchain.m_length data) (Blockchain.m_chain data).

(** POST /transactions/new ([now]: the clock, should the constructor read
    it).  The websocket broadcast is left out. *)
Definition new_transaction (now : num) (tx : Transaction.model num)
    (blockchain : Blockchain.t num) : outcome (string * Blockchain.t num) :=
  let transaction :=
    Transaction.new now (Transaction.m_sender tx) (Transaction.m_recipient tx)
      (Transaction.m_amount tx) (Transaction.m_timestamp tx)
      (Transaction.m_txid tx) in
  let '(accepted, blockchain') :=
    Blockchain.add_transaction transaction blockchain in
  if negb accepted
  then Raised (HTTPException 400
         "Invalid transaction (insufficient balance or invalid data)")
  else Returned ("Transaction will be added to the next block.", blockchain').

(** GET /mine.  [node_address] is the environment's NODE_ADDRESS, if set.
    A [Block] object is truthy, so the [if not block] branch is never
    taken; the answer carries [block.to_dict()]. *)
Definition mine_block (fuel : nat) (t_reward t_block : num)
    (node_address : option string) (blockchain : Blockchain.t num)
  : outcome (Block.model num * Blockchain.t num) :=
  let miner_address := default "miner" node_address in
  match Blockchain.mine_block fuel t_reward t_block miner_address blockchain with
  | Returned (block, blockchain') => Returned (Block.to_dict block, blockchain')
  | Raised e => Raised e
  | OutOfFuel => OutOfFuel
  end.

(** POST /nodes/register *)
Definition register_nodes (nodes : list string) (blockchain : Blockchain.t num)
  : outcome (list string * Blockchain.t num) :=
  let new_nodes : gset string := list_to_set nodes in
  if decide (new_nodes = ∅)
  then Raised (HTTPException 400 "No nodes provided.")
  else
    let blockchain :=
      fold_left (fun blockchain node => Blockchain.register_node node blockchain)
                (elements new_nodes) blockchain in
    Returned (elements (Blockchain.nodes blockchain), blockchain).

(** The chains the loop of [resolve_conflicts] decodes, peer [i] first. *)
Fixpoint candidates (i : nat) (clk : nat -> nat -> nat -> num)
    (responses : list (option (chain_response num)))
  : list (list (Block.t num)) :=
  match responses with
  | [] => []
  | None :: rest => candidates (S i) clk rest
  | Some data :: rest =>
      chain_from_dicts (clk i) (r_chain data) :: candidates (S i) clk rest
  end.

(** A peer that runs this code reports the length of the chain it sends. *)
Definition honest (response : option (chain_response num)) : Prop :=
  match response with
  | Some data => r_length data = Z.of_nat (length (r_chain data))
  | None => True
  end.

End WithNumbers.

(** *** class ConnectionManager *)

(** The list [active_connections]; a websocket is known by its identity,
    a number here.  Accepting the socket and sending on it are left to
    the transport. *)
Module ConnectionManager.

Definition connect (websocket : nat) (active_connections : list nat)
  : list nat :=
  active_connections ++ [websocket].

(** [list.remove(x)]: the first occurrence goes; [None] is the ValueError
    for an [x] that is not in the list. *)
Fixpoint disconnect (websocket : nat) (active_connections : list nat)
  : option (list nat) :=
  match active_connections with
  | [] => None
  | c :: rest =>
      if decide (c = websocket) then Some rest
      else match disconnect websocket rest with
           | Some rest' => Some (c :: rest')
           | None => None
           end
  end.

End ConnectionManager.

End Node.

(* ===================================================================== *)
(** ** run_network.py *)
(* ===================================================================== *)

Module RunNetwork.






End RunNetwork.

(* ===================================================================== *)
(** ** Notions for the further properties *)
(* ===================================================================== *)

Module Wire.
Section WithNumbers.
Context {num : Type} `{PyNumber num}.

(** A transaction whose timestamp and txid are truthy: the constructor
    keeps both when it is rebuilt from [to_dict()]. *)
Definition tx_kept (tx : Transaction.t num) : bool :=
  num_bool (Transaction.timestamp tx) && Py.str_bool (Transaction.txid tx).

Definition block_kept (b : Block.t num) : bool :=
  Py.str_bool (Block.hash b) && forallb tx_kept (Block.transactions b).

End WithNumbers.

(** A lowercase hexadecimal digit, and a string made of them. *)
Definition hex_digit (c : ascii) : bool :=
  let n := N_of_ascii c in
  ((48 <=? n) && (n <=? 57) || (97 <=? n) && (n <=? 102))%N.

Fixpoint all_hex (s : string) : bool :=
  match s with
  | EmptyString => true
  | String c rest => hex_digit c && all_hex rest
  end.

End Wire.

Module Supply.

(** The sum of all balances. *)
Definition total (balances : gmap string Z) : Z :=
  map_fold (fun _ v acc => (v + acc)%Z) 0%Z balances.



End Supply.

(* ===================================================================== *)
(** ** The notions the specification is phrased in *)
(* ===================================================================== *)

Module Spec.
Section WithNumbers.
Context {num : Type} `{PyNumber num}.

(** Subtract [amount] from [who] / add [amount] to [who]; somebody absent
    from the table counts as 0. *)
Definition debit (who : string) (amount : num) (table : gmap string num)
  : gmap string num :=
  <[who := num_sub (default num_zero (table !! who)) amount]> table.

Definition credit (who : string) (amount : num) (table : gmap string num)
  : gmap string num :=
  <[who := num_add (default num_zero (table !! who)) amount]> table.

(** One term of the sum: minus the amount to the sender unless the sender
    is "MINING", plus the amount to the recipient. *)
Definition apply_transaction (table : gmap string num)
    (tx : Transaction.t num) : gmap string num :=
  credit (Transaction.recipient tx) (Transaction.amount tx)
    (if decide (Transaction.sender tx = "MINING") then table
     else debit (Transaction.sender tx) (Transaction.amount tx) table).

(** The balance table as the specification defines it: the fold over all
    transactions of all blocks, in chain order. *)
Definition balance_sum (chain : list (Block.t num)) : gmap string num :=
  fold_left apply_transaction (concat (map Block.transactions chain)) ∅.

(** Every block from index 1 on links to its predecessor and carries the
    digest of its own fields. *)
Definition links_ok (chain : list (Block.t num)) : Prop :=
  forall (i : nat) (current previous : Block.t num),
    (1 <= i)%nat ->
    chain !! i = Some current ->
    chain !! (i - 1)%nat = Some previous ->
    Block.previous_hash current = Block.hash previous
    /\ Block.hash current = Block.calculate_hash current.

(** The shape of a genesis block. *)
Definition genesis_shaped (b : Block.t num) : Prop :=
  Block.index b = 0%Z /\ Block.transactions b = [] /\ Block.previous_hash b = "0".

Definition genesis_first (chain : list (Block.t num)) : Prop :=
  exists b, chain !! 0%nat = Some b /\ genesis_shaped b.

(** The reward transaction of a mined block. *)
Definition is_reward (self : Blockchain.t num) (miner_address : string)
    (tx : Transaction.t num) : Prop :=
  Transaction.sender tx = "MINING"
  /\ Transaction.recipient tx = miner_address
  /\ Transaction.amount tx = Blockchain.mining_reward self.

(** Overwriting the previous-hash of the block at position [i]. *)
Definition set_previous_hash (v : string) (b : Block.t num) : Block.t num :=
  Block.mk (Block.index b) (Block.timestamp b) (Block.transactions b) v
           (Block.nonce b) (Block.hash b).

Definition tamper_previous_hash (i : nat) (v : string)
    (chain : list (Block.t num)) : list (Block.t num) :=
  alter (set_previous_hash v) i chain.

End WithNumbers.

(** Number of leading ['0'] characters. *)
Fixpoint leading_zeros (s : string) : nat :=
  match s with
  | String c rest => if Ascii.eqb c "0"%char then S (leading_zeros rest) else O
  | EmptyString => O
  end.

End Spec.

(* ===================================================================== *)
(** ** The ledger as a state machine *)
(* ===================================================================== *)

(** The public operations. *)
Inductive call (num : Type) : Type :=
  | AddTransaction (transaction : Transaction.t num)
  | MineBlock (fuel : nat) (t_reward t_block : num) (miner_address : string)
  | ReceiveBlock (clk : nat -> num) (block_data : Block.model num)
  | ReplaceChain (new_chain : list (Block.t num))
  | RegisterNode (address : string).
Arguments AddTransaction {num} _.
Arguments MineBlock {num} _ _ _ _.
Arguments ReceiveBlock {num} _ _.
Arguments ReplaceChain {num} _.
Arguments RegisterNode {num} _.

Section Machine.
Context {num : Type} `{PyNumber num}.

(** The ledger a call leaves behind.  A call that raises has not touched
    the ledger (both functions raise before their first assignment); a
    call that is still mining leaves no state to observe. *)
Definition exec (c : call num) (self : Blockchain.t num)
  : option (Blockchain.t num) :=
  match c with
  | AddTransaction tx => Some (snd (Blockchain.add_transaction tx self))
  | MineBlock fuel t_reward t_block miner_address =>
      match Blockchain.mine_block fuel t_reward t_block miner_address self with
      | Returned (_, self') => Some self'
      | Raised _ => Some self
      | OutOfFuel => None
      end
  | ReceiveBlock clk block_data =>
      match Node.receive_block clk block_data self with
      | Returned (_, self') => Some self'
      | Raised _ => Some self
      | OutOfFuel => None
      end
  | ReplaceChain new_chain => Some (snd (Blockchain.replace_chain new_chain self))
  | RegisterNode address => Some (Blockchain.register_node address self)
  end.

(** The states reached from a freshly constructed ledger by calls that
    satisfy [allowed]. *)
Inductive reachable_by (allowed : call num -> Prop) : Blockchain.t num -> Prop :=
  | reach_init (now : num) (difficulty : Z) (mining_reward : num) :
      reachable_by allowed (Blockchain.init now difficulty mining_reward)
  | reach_call (c : call num) (self self' : Blockchain.t num) :
      reachable_by allowed self ->
      allowed c ->
      exec c self = Some self' ->
      reachable_by allowed self'.

Definition reachable : Blockchain.t num -> Prop := reachable_by (fun _ => True).

(** Only [mine_block] is called. *)
Definition only_mining (c : call num) : Prop :=
  match c with MineBlock _ _ _ _ => True | _ => False end.

(** Every chain handed to [replace_chain] begins with a genesis-shaped
    block. *)
Definition genesis_kept (c : call num) : Prop :=
  match c with
  | ReplaceChain new_chain => Spec.genesis_first new_chain
  | _ => True
  end.

End Machine.

(* ===================================================================== *)
(** ** Concrete ledgers (Python ints) *)
(* ===================================================================== *)

Module Scenario.
Local Open Scope Z_scope.

(** The ledger a call to [mine_block] leaves ([otherwise] if it did not
    return). *)
Definition mined (r : outcome (Block.t Z * Blockchain.t Z))
    (otherwise : Blockchain.t Z) : Blockchain.t Z :=
  match r with
  | Returned (_, self) => self
  | _ => otherwise
  end.

(** [Blockchain(difficulty=1, mining_reward=10)] *)
Definition fresh : Blockchain.t Z := Blockchain.init 1700000000 1 10.

(** Scenario A: mine with address "M1". *)
Definition after_A : Blockchain.t Z :=
  mined (Blockchain.mine_block 2 1700000001 1700000015 "M1" fresh) fresh.

(** Scenario B: M1 pays X 5, then "M2" mines. *)
Definition tx_B : Transaction.t Z :=
  Transaction.new 1700000016 "M1" "X" 5 None None.

Definition after_B : Blockchain.t Z :=
  mined (Blockchain.mine_block 1 1700000017 1700000019 "M2"
           (snd (Blockchain.add_transaction tx_B after_A)))
        after_A.

(** [Blockchain(difficulty=4, mining_reward=10)] *)
Definition strict : Blockchain.t Z := Blockchain.init 1700000000 4 10.

(** [Blockchain(difficulty=65, mining_reward=10)] *)
Definition fresh65 : Blockchain.t Z := Blockchain.init 1700000000 65 10.

(** A transfer of -1 from somebody who owns nothing. *)
Definition tx_negative : Transaction.t Z :=
  Transaction.new 1700000003 "Z" "X" (-1) None None.

(** A chain that starts with a block of index 7 holding a transaction. *)
Definition forged_first : Block.t Z :=
  Block.new 7 1700000000
    [Transaction.new 1700000000 "MINING" "Eve" 1000 None None] "feed" 0 None.

Definition forged_chain : list (Block.t Z) :=
  [forged_first; Block.new 8 1700000001 [] (Block.hash forged_first) 0 None].

(** Another node, started half a minute later, and the same node after
    it mined one block. *)
Definition peer : Blockchain.t Z := Blockchain.init 1700000030 1 10.

Definition peer_after_mining : Blockchain.t Z :=
  mined (Blockchain.mine_block 1 1700000031 1700000036 "P" peer) peer.

(** Two linked blocks nobody mined: nonce 0, no leading zero. *)
Definition unmined_chain : list (Block.t Z) :=
  [Blockchain.create_genesis_block 1700000030;
   Block.new 1 1700000031 []
     (Block.hash (Blockchain.create_genesis_block 1700000030)) 0 None].


(** A peer that answers with its one-block chain and claims length 5. *)
Definition overstated : Node.chain_response Z :=
  Node.mk_response 5 (map Block.to_dict (Blockchain.chain peer)).


(** What [peer_after_mining] answers to GET /chain, and an answer with
    no chain that claims a million blocks. *)
Definition peer_answer : Node.chain_response Z :=
  Node.response_of (Node.get_chain peer_after_mining).

Definition empty_answer : Node.chain_response Z :=
  Node.mk_response 1000000 [].


(** The clock, for decoders that never read it in these scenarios. *)
Definition clk1 : nat -> Z := fun _ => 1700000040.
Definition clk2 : nat -> nat -> Z := fun _ _ => 1700000040.
Definition clk3 : nat -> nat -> nat -> Z := fun _ _ _ => 1700000040.

End Scenario.

(* ===================================================================== *)
(** ** The digest and the serialization at work *)
(* ===================================================================== *)

(** The test vector of FIPS 180-4 for "abc". *)
Example sha256_abc :
  Py.sha256_hexdigest "abc"
  = "ba7816bf8f01cfea414140de5dae2223b00361a396177a9cb410ff61f20015ad".
Proof. vm_compute. reflexivity. Qed.

(** The genesis block of [Blockchain()] at clock 1700000000 (an int), the
    text it digests and its hash. *)
Example genesis_block_string :
  Block.block_string (Blockchain.create_genesis_block 1700000000%Z)
  = "{" +:+ Json.str "index" +:+ ": 0, " +:+ Json.str "nonce" +:+ ": 0, "
    +:+ Json.str "previous_hash" +:+ ": " +:+ Json.str "0" +:+ ", "
    +:+ Json.str "timestamp" +:+ ": 1700000000, "
    +:+ Json.str "transactions" +:+ ": []}".
Proof. vm_compute. reflexivity. Qed.

Example genesis_hash :
  Block.hash (Blockchain.create_genesis_block 1700000000%Z)
  = "bea8497b5ef91e55f6863144b4ccd1e23fe3a558a9378306425605ab66a339a0".
Proof. vm_compute. reflexivity. Qed.

(** Scenario A's block: two turns of the loop, one leading zero. *)
Example scenario_A_block :
  (fun b => (Block.nonce b, Block.hash b))
    <$> last (Blockchain.chain Scenario.after_A)
  = Some (2%Z,
          "0a6f9ebb4321d3636b8c8d976f686c559be363cec6e0036d9c0d6a65d48cbcaa").
Proof. vm_compute. reflexivity. Qed.

(* ===================================================================== *)
(** ** Digests and the leading-zero test *)
(* ===================================================================== *)

Lemma hex8_length (w : N) : String.length (SHA256.hex8 w) = 8%nat.
Proof. reflexivity. Qed.

Lemma append_length (s1 s2 : string) :
  String.length (s1 +:+ s2) = (String.length s1 + String.length s2)%nat.
Proof. induction s1 as [|c s1 IH]; simpl; [reflexivity | now rewrite IH]. Qed.

(** A SHA-256 hex digest has 64 characters, whatever was digested. *)
Lemma hexdigest_length (msg : list N) :
  String.length (SHA256.hexdigest msg) = 64%nat.
Proof.
  unfold SHA256.hexdigest. destruct (SHA256.digest msg).
  repeat rewrite append_length. repeat rewrite hex8_length. reflexivity.
Qed.

Lemma str_repeat_zero_S (n : nat) :
  Py.str_repeat "0" (S n) = String "0"%char (Py.str_repeat "0" n).
Proof. reflexivity. Qed.

Lemma str_repeat_zero_length (n : nat) :
  String.length (Py.str_repeat "0" n) = n.
Proof.
  induction n as [|n IH]; [reflexivity|].
  rewrite str_repeat_zero_S. simpl. now rewrite IH.
Qed.

Lemma prefix_cons (a b : ascii) (p s : string) :
  String.prefix (String a p) (String b s)
  = if ascii_dec a b then String.prefix p s else false.
Proof. reflexivity. Qed.

Lemma prefix_length (p s : string) :
  String.prefix p s = true -> (String.length p <= String.length s)%nat.
Proof.
  revert s. induction p as [|a p IH]; intros s Hp; [simpl; lia|].
  destruct s as [|b s]; [discriminate|].
  rewrite prefix_cons in Hp. destruct (ascii_dec a b); [|discriminate].
  apply IH in Hp. simpl. lia.
Qed.

(** [s.startswith("0" * n)] counts leading zeros. *)
Lemma startswith_zeros (s : string) (n : nat) :
  Py.startswith s (Py.str_repeat "0" n) = true <-> (n <= Spec.leading_zeros s)%nat.
Proof.
  unfold Py.startswith. revert s. induction n as [|n IH]; intros s.
  - simpl. split; [lia | now destruct s].
  - rewrite str_repeat_zero_S. destruct s as [|b s].
    + simpl. split; [discriminate | lia].
    + rewrite prefix_cons. cbn [Spec.leading_zeros].
      destruct (ascii_dec "0" b) as [<-|Hne].
      * rewrite Ascii.eqb_refl, IH. lia.
      * destruct (Ascii.eqb_spec b "0"%char) as [->|_]; [congruence|].
        split; [discriminate | lia].
Qed.

Section BlockFacts.
Context {num : Type} `{PyNumber num}.

(** [calculate_hash] does not read the [hash] attribute. *)
Lemma calculate_hash_ignores_hash (i : Z) (ts : num)
    (txs : list (Transaction.t num)) (p : string) (n : Z) (h h' : string) :
  Block.calculate_hash (Block.mk i ts txs p n h)
  = Block.calculate_hash (Block.mk i ts txs p n h').
Proof. reflexivity. Qed.

Lemma calculate_hash_length (b : Block.t num) :
  String.length (Block.calculate_hash b) = 64%nat.
Proof. apply hexdigest_length. Qed.


Lemma bump_self_consistent (b : Block.t num) :
  Block.hash (Block.bump b) = Block.calculate_hash (Block.bump b).
Proof. reflexivity. Qed.

(** The candidate after [k] turns of the loop is the block built with
    nonce [k]. *)
Lemma iter_bump_new (i : Z) (ts : num) (txs : list (Transaction.t num))
    (p : string) (k : nat) :
  Nat.iter k Block.bump (Block.new i ts txs p 0 None)
  = Block.new i ts txs p (Z.of_nat k) None.
Proof.
  induction k as [|k IH]; [reflexivity|].
  rewrite Nat.iter_succ, IH. unfold Block.bump, Block.new. simpl.
  replace (Z.of_nat k + 1)%Z with (Z.of_nat (S k)) by lia. reflexivity.
Qed.

Lemma pow_done_leading_zeros (d : Z) (b : Block.t num) :
  Blockchain.pow_done d b = true
  <-> (d <= Z.of_nat (Spec.leading_zeros (Block.hash b)))%Z.
Proof.
  unfold Blockchain.pow_done, Py.str_mul. rewrite startswith_zeros. lia.
Qed.

(** No 64-character digest starts with 65 zeros. *)
Lemma pow_done_above_64 (d : Z) (b : Block.t num) :
  (64 < d)%Z ->
  String.length (Block.hash b) = 64%nat ->
  Blockchain.pow_done d b = false.
Proof.
  intros Hd Hlen. destruct (Blockchain.pow_done d b) eqn:E; [|reflexivity].
  unfold Blockchain.pow_done, Py.startswith in E.
  apply prefix_length in E.
  unfold Py.str_mul in E. rewrite str_repeat_zero_length in E. lia.
Qed.

(** *** The proof-of-work loop *)

(** What the loop returns passes the test and differs from the candidate
    in nonce and hash only. *)
Lemma proof_of_work_sound (fuel : nat) (d : Z) (b b' : Block.t num) :
  Blockchain.proof_of_work fuel d b = Some b' ->
  Blockchain.pow_done d b' = true
  /\ Block.index b' = Block.index b
  /\ Block.timestamp b' = Block.timestamp b
  /\ Block.transactions b' = Block.transactions b
  /\ Block.previous_hash b' = Block.previous_hash b
  /\ (Block.hash b = Block.calculate_hash b ->
      Block.hash b' = Block.calculate_hash b').
Proof.
  revert b. induction fuel as [|fuel IH]; intros b; simpl.
  - destruct (Blockchain.pow_done d b) eqn:E; [|discriminate].
    intros [= <-]. auto 10.
  - destruct (Blockchain.pow_done d b) eqn:E.
    + intros [= <-]. auto 10.
    + intros Hrec. apply IH in Hrec as (H1 & H2 & H3 & H4 & H5 & H6).
      repeat split; try assumption.
      intros _. apply H6. apply bump_self_consistent.
Qed.

(** If the candidate passes after [k] more turns, [k] units of fuel are
    enough. *)
Lemma proof_of_work_complete (k : nat) (d : Z) (b : Block.t num) :
  Blockchain.pow_done d (Nat.iter k Block.bump b) = true ->
  exists b', Blockchain.proof_of_work k d b = Some b'.
Proof.
  revert b. induction k as [|k IH]; intros b Hk.
  - simpl in *. rewrite Hk. eauto.
  - cbn [Blockchain.proof_of_work].
    destruct (Blockchain.pow_done d b); [eauto|].
    apply IH. rewrite <- Nat.iter_succ_r. exact Hk.
Qed.

(** More fuel does not change a result. *)
Lemma proof_of_work_more_fuel (fuel extra : nat) (d : Z) (b b' : Block.t num) :
  Blockchain.proof_of_work fuel d b = Some b' ->
  Blockchain.proof_of_work (fuel + extra) d b = Some b'.
Proof.
  revert b. induction fuel as [|fuel IH]; intros b; simpl.
  - destruct (Blockchain.pow_done d b) eqn:E; [|discriminate].
    intros [= <-]. destruct extra; simpl; now rewrite E.
  - destruct (Blockchain.pow_done d b) eqn:E; [trivial|]. apply IH.
Qed.

(** Without a passing candidate the loop runs for ever. *)
Lemma proof_of_work_never (fuel : nat) (d : Z) (b : Block.t num) :
  (forall k : nat, Blockchain.pow_done d (Nat.iter k Block.bump b) = false) ->
  Blockchain.proof_of_work fuel d b = None.
Proof.
  revert b. induction fuel as [|fuel IH]; intros b Hall;
    pose proof (Hall 0%nat) as H0; simpl in H0; simpl; rewrite H0.
  - reflexivity.
  - apply IH. intros k. rewrite <- Nat.iter_succ_r. apply Hall.
Qed.

End BlockFacts.

(* ===================================================================== *)
(** ** Validation *)
(* ===================================================================== *)

Section ValidationFacts.
Context {num : Type} `{PyNumber num}.

Lemma validate_loop_true (chain : list (Block.t num)) (indices : list nat) :
  Blockchain.validate_loop chain indices = true
  <-> Forall (fun i => exists current previous,
                chain !! i = Some current
                /\ chain !! (i - 1)%nat = Some previous
                /\ Block.previous_hash current = Block.hash previous
                /\ Block.hash current = Block.calculate_hash current) indices.
Proof.
  induction indices as [|i rest IH]; simpl.
  - split; [constructor | reflexivity].
  - rewrite Forall_cons_iff, <- IH. clear IH.
    destruct (chain !! i) as [current|] eqn:Ec;
      [destruct (chain !! (i - 1)%nat) as [previous|] eqn:Ep|].
    + destruct (String.eqb_spec (Block.previous_hash current) (Block.hash previous))
        as [E1|N1]; simpl.
      * destruct (String.eqb_spec (Block.hash current) (Block.calculate_hash current))
          as [E2|N2]; simpl.
        -- split; [intros Hr; split; [eauto 10 | exact Hr] | intros [_ Hr]; exact Hr].
        -- split; [discriminate|].
           intros [(c' & p' & [= <-] & [= <-] & _ & E2) _]. contradiction.
      * split; [discriminate|].
        intros [(c' & p' & [= <-] & [= <-] & E1 & _) _]. contradiction.
    + split; [discriminate|]. intros [(c' & p' & _ & [=] & _) _].
    + split; [discriminate|]. intros [(c' & p' & [=] & _) _].
Qed.

(** The loop over [range(1, len(chain))] decides [links_ok]. *)
Lemma validate_loop_links (chain : list (Block.t num)) :
  Blockchain.validate_loop chain (seq 1 (length chain - 1)) = true
  <-> Spec.links_ok chain.
Proof.
  rewrite validate_loop_true, Forall_forall. split.
  - intros Hall i current previous Hi Hc Hp.
    assert (Hlt : (i < length chain)%nat) by (eapply lookup_lt_Some; eauto).
    destruct (Hall i) as (c' & p' & Hc' & Hp' & E1 & E2).
    { apply elem_of_seq. lia. }
    rewrite Hc in Hc'. rewrite Hp in Hp'.
    injection Hc' as <-. injection Hp' as <-. auto.
  - intros Hlinks i Hin. apply elem_of_seq in Hin.
    destruct (lookup_lt_is_Some_2 chain i) as [current Hc]; [lia|].
    destruct (lookup_lt_is_Some_2 chain (i - 1)) as [previous Hp]; [lia|].
    exists current, previous.
    destruct (Hlinks i current previous) as [E1 E2]; auto; lia.
Qed.

Lemma validate_chain_links (chain : option (list (Block.t num)))
    (self : Blockchain.t num) :
  Blockchain.validate_chain chain self = true
  <-> Spec.links_ok (Blockchain.chain_or chain self).
Proof. unfold Blockchain.validate_chain. apply validate_loop_links. Qed.

Lemma chain_or_nonempty (chain : list (Block.t num)) (self : Blockchain.t num) :
  chain <> [] -> Blockchain.chain_or (Some chain) self = chain.
Proof. destruct chain; [congruence | reflexivity]. Qed.

Lemma links_ok_single (b : Block.t num) : Spec.links_ok [b].
Proof.
  intros i current previous Hi Hc _.
  apply lookup_lt_Some in Hc. simpl in Hc. lia.
Qed.

Lemma links_ok_nil : Spec.links_ok (@nil (Block.t num)).
Proof. intros i current previous _ Hc _. discriminate. Qed.

(** Appending a block that links to the head and carries its own digest
    keeps a chain linked. *)
Lemma links_ok_snoc (chain : list (Block.t num)) (head b : Block.t num) :
  Spec.links_ok chain ->
  last chain = Some head ->
  Block.previous_hash b = Block.hash head ->
  Block.hash b = Block.calculate_hash b ->
  Spec.links_ok (chain ++ [b]).
Proof.
  intros Hlinks Hlast E1 E2 i current previous Hi Hc Hp.
  rewrite last_lookup in Hlast.
  destruct (decide (i < length chain)%nat) as [Hlt|Hge].
  - rewrite lookup_app_l in Hc by lia. rewrite lookup_app_l in Hp by lia.
    eapply Hlinks; eauto.
  - assert (Hlen : (i < length (chain ++ [b]))%nat)
      by (eapply lookup_lt_Some; eauto).
    rewrite length_app in Hlen. simpl in Hlen.
    assert (i = length chain) as -> by lia.
    rewrite lookup_app_r in Hc by lia.
    rewrite Nat.sub_diag in Hc. injection Hc as <-.
    rewrite lookup_app_l in Hp by lia.
    replace (length chain - 1)%nat with (pred (length chain)) in Hp by lia.
    rewrite Hlast in Hp. injection Hp as <-. auto.
Qed.

End ValidationFacts.

(* ===================================================================== *)
(** ** Balances *)
(* ===================================================================== *)

Section BalanceFacts.
Context {num : Type} `{PyNumber num}.

(** The loop body is the specification's rule. *)
Lemma update_balances_apply (table : gmap string num) (tx : Transaction.t num) :
  Blockchain.update_balances table tx = Spec.apply_transaction table tx.
Proof.
  unfold Blockchain.update_balances, Spec.apply_transaction,
    Spec.credit, Spec.debit, Blockchain.balance_of.
  destruct (String.eqb_spec (Transaction.sender tx) "MINING") as [E|N]; simpl.
  - rewrite decide_True by exact E. reflexivity.
  - rewrite decide_False by exact N. reflexivity.
Qed.

Lemma fold_update_apply (txs : list (Transaction.t num)) (table : gmap string num) :
  fold_left Blockchain.update_balances txs table
  = fold_left Spec.apply_transaction txs table.
Proof.
  revert table. induction txs as [|tx txs IH]; intros table; simpl;
    [reflexivity|].
  now rewrite update_balances_apply, IH.
Qed.

Lemma replay_from (chain : list (Block.t num)) (table : gmap string num) :
  fold_left
    (fun balances block =>
       fold_left Blockchain.update_balances (Block.transactions block) balances)
    chain table
  = fold_left Spec.apply_transaction (concat (map Block.transactions chain)) table.
Proof.
  revert table. induction chain as [|b chain IH]; intros table; simpl;
    [reflexivity|].
  rewrite fold_left_app, IH, fold_update_apply. reflexivity.
Qed.

(** The nested loops of [recalculate_balances] compute the sum. *)
Lemma replay_balance_sum (chain : list (Block.t num)) :
  Blockchain.replay chain = Spec.balance_sum chain.
Proof. apply replay_from. Qed.

Lemma replay_snoc (chain : list (Block.t num)) (b : Block.t num) :
  Blockchain.replay (chain ++ [b])
  = fold_left Blockchain.update_balances (Block.transactions b)
              (Blockchain.replay chain).
Proof. unfold Blockchain.replay. rewrite fold_left_app. reflexivity. Qed.

End BalanceFacts.

(* ===================================================================== *)
(** ** What each operation does to the ledger *)
(* ===================================================================== *)

Section OperationFacts.
Context {num : Type} `{PyNumber num}.

Lemma mine_block_returned (fuel : nat) (t_reward t_block : num)
    (miner_address : string) (self self' : Blockchain.t num) (b : Block.t num) :
  Blockchain.mine_block fuel t_reward t_block miner_address self
  = Returned (b, self') ->
  exists head,
    Blockchain.get_last_block self = Some head
    /\ Blockchain.proof_of_work fuel (Blockchain.difficulty self)
         (Block.new (Block.index head + 1) t_block
            (Blockchain.mempool self
             ++ [Transaction.new t_reward "MINING" miner_address
                   (Blockchain.mining_reward self) None None])
            (Block.hash head) 0 None) = Some b
    /\ self' = Blockchain.mk (Blockchain.chain self ++ [b])
                 (Blockchain.difficulty self) (Blockchain.mining_reward self)
                 [] (Blockchain.nodes self)
                 (fold_left Blockchain.update_balances
                    (Blockchain.mempool self
                     ++ [Transaction.new t_reward "MINING" miner_address
                           (Blockchain.mining_reward self) None None])
                    (Blockchain.balances self)).
Proof.
  unfold Blockchain.mine_block.
  destruct (Blockchain.get_last_block self) as [head|]; [|discriminate].
  destruct (Blockchain.proof_of_work _ _ _) as [b'|] eqn:Epow; [|discriminate].
  intros [= <- <-]. eauto.
Qed.

Lemma receive_block_returned (clk : nat -> num) (data : Block.model num)
    (self self' : Blockchain.t num) (msg : string) :
  Node.receive_block clk data self = Returned (msg, self') ->
  exists head,
    Blockchain.get_last_block self = Some head
    /\ Block.previous_hash (Block.from_dict clk data) = Block.hash head
    /\ Block.hash (Block.from_dict clk data)
       = Block.calculate_hash (Block.from_dict clk data)
    /\ msg = "Block added"
    /\ self' = Blockchain.mk (Blockchain.chain self ++ [Block.from_dict clk data])
                 (Blockchain.difficulty self) (Blockchain.mining_reward self)
                 [] (Blockchain.nodes self)
                 (Blockchain.replay
                    (Blockchain.chain self ++ [Block.from_dict clk data])).
Proof.
  unfold Node.receive_block.
  set (block := Block.from_dict clk data).
  destruct (Blockchain.get_last_block self) as [head|]; [|discriminate].
  destruct (String.eqb_spec (Block.previous_hash block) (Block.hash head))
    as [E1|N1]; cbn [andb]; [|discriminate].
  destruct (String.eqb_spec (Block.hash block) (Block.calculate_hash block))
    as [E2|N2]; [|discriminate].
  intros [= <- <-]. eauto 10.
Qed.

(** [replace_chain] either installs the candidate or does nothing. *)
Lemma replace_chain_cases (new_chain : list (Block.t num))
    (self : Blockchain.t num) :
  ((length (Blockchain.chain self) < length new_chain)%nat
   /\ Blockchain.validate_chain (Some new_chain) self = true
   /\ Blockchain.replace_chain new_chain self
      = (true,
         Blockchain.mk new_chain (Blockchain.difficulty self)
           (Blockchain.mining_reward self) [] (Blockchain.nodes self)
           (Blockchain.replay new_chain)))
  \/ (~ ((length (Blockchain.chain self) < length new_chain)%nat
         /\ Blockchain.validate_chain (Some new_chain) self = true)
      /\ Blockchain.replace_chain new_chain self = (false, self)).
Proof.
  unfold Blockchain.replace_chain.
  destruct (Nat.ltb_spec (length (Blockchain.chain self)) (length new_chain))
    as [Hlt|Hge]; simpl.
  - destruct (Blockchain.validate_chain (Some new_chain) self) eqn:Ev.
    + left. auto.
    + right. split; [intros [_ ?]; discriminate | reflexivity].
  - right. split; [intros [? _]; lia | reflexivity].
Qed.

End OperationFacts.

(* ===================================================================== *)
(** ** Invariants of the state machine *)
(* ===================================================================== *)

Section Invariants.
Context {num : Type} `{PyNumber num}.

Lemma add_transaction_frame (tx : Transaction.t num) (self : Blockchain.t num) :
  Blockchain.chain (snd (Blockchain.add_transaction tx self)) = Blockchain.chain self
  /\ Blockchain.balances (snd (Blockchain.add_transaction tx self))
     = Blockchain.balances self.
Proof.
  unfold Blockchain.add_transaction.
  destruct (negb _); [destruct (num_lt _ _)|]; auto.
Qed.

(** What a call can do to the chain and the table: leave both alone,
    append a block that links to the head, or swap in a longer linked
    chain. *)
Lemma exec_chain (c : call num) (self self' : Blockchain.t num) :
  exec c self = Some self' ->
  (Blockchain.chain self' = Blockchain.chain self
   /\ Blockchain.balances self' = Blockchain.balances self)
  \/ (exists head b,
        last (Blockchain.chain self) = Some head
        /\ Block.previous_hash b = Block.hash head
        /\ Block.hash b = Block.calculate_hash b
        /\ Blockchain.chain self' = Blockchain.chain self ++ [b]
        /\ (Blockchain.balances self = Blockchain.replay (Blockchain.chain self)
            -> Blockchain.balances self' = Blockchain.replay (Blockchain.chain self')))
  \/ (exists new_chain,
        c = ReplaceChain new_chain
        /\ (length (Blockchain.chain self) < length new_chain)%nat
        /\ Spec.links_ok new_chain
        /\ Blockchain.chain self' = new_chain
        /\ Blockchain.balances self' = Blockchain.replay new_chain).
Proof.
  destruct c as [tx|fuel t_reward t_block miner|clk data|new_chain|address];
    simpl; intros Hexec.
  - injection Hexec as <-. left. apply add_transaction_frame.
  - destruct (Blockchain.mine_block _ _ _ _ _) as [[b st]|e|] eqn:Em;
      [|injection Hexec as <-; left; auto | discriminate].
    injection Hexec as <-.
    apply mine_block_returned in Em as (head & Hlast & Hpow & ->).
    apply proof_of_work_sound in Hpow as (_ & _ & _ & Htx & Hprev & Hself).
    right; left. exists head, b. simpl.
    split_and!.
    + exact Hlast.
    + exact Hprev.
    + apply Hself. reflexivity.
    + reflexivity.
    + intros Hbal. rewrite replay_snoc, Htx, Hbal. reflexivity.
  - destruct (Node.receive_block _ _ _) as [[msg st]|e|] eqn:Er;
      [|injection Hexec as <-; left; auto | discriminate].
    injection Hexec as <-.
    apply receive_block_returned in Er as (head & Hlast & E1 & E2 & _ & ->).
    right; left. exists head, (Block.from_dict clk data). simpl.
    split_and!; assumption || reflexivity.
  - injection Hexec as <-.
    destruct (replace_chain_cases new_chain self) as [(Hlen & Hv & ->)|(_ & ->)].
    + right; right. exists new_chain. simpl.
      apply validate_chain_links in Hv.
      rewrite chain_or_nonempty in Hv by (intros ->; simpl in Hlen; lia).
      split_and!; auto.
    + left. auto.
  - injection Hexec as <-. left. auto.
Qed.

(** In every reachable state the chain is non-empty and linked, and the
    table is what [recalculate_balances] would compute. *)
Lemma reachable_by_invariant (allowed : call num -> Prop)
    (self : Blockchain.t num) :
  reachable_by allowed self ->
  Blockchain.chain self <> []
  /\ Spec.links_ok (Blockchain.chain self)
  /\ Blockchain.balances self = Blockchain.replay (Blockchain.chain self).
Proof.
  induction 1 as [now d r | c self self' _ (Hne & Hlinks & Hbal) _ Hexec].
  - simpl. split_and!; [discriminate | apply links_ok_single | reflexivity].
  - apply exec_chain in Hexec
      as [(-> & ->) | [(head & b & Hlast & E1 & E2 & -> & Hb)
                      | (new_chain & _ & Hlen & Hl & -> & ->)]].
    + auto.
    + split_and!; auto.
      * intros Happ. apply app_eq_nil in Happ as [_ ?]. discriminate.
      * eapply links_ok_snoc; eauto.
    + split_and!; auto. intros ->. simpl in Hlen. lia.
Qed.

(** The first block survives every call, except that [replace_chain]
    installs the candidate's. *)
Lemma exec_first_block (c : call num) (self self' : Blockchain.t num)
    (first : Block.t num) :
  exec c self = Some self' ->
  Blockchain.chain self !! 0%nat = Some first ->
  Blockchain.chain self' !! 0%nat = Some first
  \/ exists new_chain, c = ReplaceChain new_chain
                       /\ Blockchain.chain self' = new_chain.
Proof.
  intros Hexec Hfirst.
  apply exec_chain in Hexec
    as [(-> & _) | [(head & b & _ & _ & _ & -> & _)
                    | (new_chain & -> & _ & _ & -> & _)]].
  - left. exact Hfirst.
  - left. rewrite lookup_app_l; [exact Hfirst|]. eapply lookup_lt_Some; eauto.
  - right. eauto.
Qed.

End Invariants.

(* ===================================================================== *)
(** ** Mining *)
(* ===================================================================== *)

Section Mining.
Context {num : Type} `{PyNumber num}.

(** With a difficulty above 64 the loop of [mine_block] never ends. *)
Lemma mine_block_diverges (fuel : nat) (t_reward t_block : num)
    (miner_address : string) (self : Blockchain.t num) (head : Block.t num) :
  Blockchain.get_last_block self = Some head ->
  (64 < Blockchain.difficulty self)%Z ->
  Blockchain.mine_block fuel t_reward t_block miner_address self = OutOfFuel.
Proof.
  intros Hlast Hd. unfold Blockchain.mine_block. rewrite Hlast.
  rewrite proof_of_work_never; [reflexivity|].
  intros k. apply pow_done_above_64; [exact Hd|].
  rewrite iter_bump_new. apply calculate_hash_length.
Qed.

(** With difficulty 0 or less the first candidate passes. *)
Lemma mine_block_without_work (fuel : nat) (t_reward t_block : num)
    (miner_address : string) (self : Blockchain.t num) (head : Block.t num) :
  Blockchain.get_last_block self = Some head ->
  (Blockchain.difficulty self <= 0)%Z ->
  exists b self',
    Blockchain.mine_block fuel t_reward t_block miner_address self
    = Returned (b, self').
Proof.
  intros Hlast Hd. unfold Blockchain.mine_block. rewrite Hlast.
  destruct (proof_of_work_complete 0 (Blockchain.difficulty self)
              (Block.new (Block.index head + 1) t_block
                 (Blockchain.mempool self
                  ++ [Transaction.new t_reward "MINING" miner_address
                        (Blockchain.mining_reward self) None None])
                 (Block.hash head) 0 None)) as [b Hb].
  { apply pow_done_leading_zeros. simpl. lia. }
  apply proof_of_work_more_fuel with (extra := fuel) in Hb.
  simpl in Hb. rewrite Hb. eauto.
Qed.

(** C1, as amended.  Whenever the chain is non-empty and the candidate
    block built with some nonce [k] has a hash with [difficulty] leading
    zeros, [mine_block] returns (for every fuel of at least [k] turns) a
    block that is appended to the chain, has the head's index plus 1 and
    the head's hash as previous hash, holds the mempool's transactions
    followed by one reward transaction from "MINING" to the miner over
    the mining reward, has at least [difficulty] leading zeros in its
    hash, and the mempool is empty afterwards. *)
Theorem mine_block_returns (k : nat) (t_reward t_block : num)
    (miner_address : string) (self : Blockchain.t num) (head : Block.t num) :
  Blockchain.get_last_block self = Some head ->
  (Blockchain.difficulty self
   <= Z.of_nat (Spec.leading_zeros (Block.hash
        (Block.new (Block.index head + 1) t_block
           (Blockchain.mempool self
            ++ [Transaction.new t_reward "MINING" miner_address
                  (Blockchain.mining_reward self) None None])
           (Block.hash head) (Z.of_nat k) None))))%Z ->
  exists (b : Block.t num) (self' : Blockchain.t num),
    (forall fuel : nat, (k <= fuel)%nat ->
       Blockchain.mine_block fuel t_reward t_block miner_address self
       = Returned (b, self'))
    /\ Blockchain.chain self' = Blockchain.chain self ++ [b]
    /\ Block.index b = (Block.index head + 1)%Z
    /\ Block.previous_hash b = Block.hash head
    /\ (exists reward_tx,
          Block.transactions b = Blockchain.mempool self ++ [reward_tx]
          /\ Spec.is_reward self miner_address reward_tx)
    /\ (Blockchain.difficulty self
        <= Z.of_nat (Spec.leading_zeros (Block.hash b)))%Z
    /\ Blockchain.mempool self' = [].
Proof.
  intros Hlast Hk.
  set (reward_tx := Transaction.new t_reward "MINING" miner_address
                      (Blockchain.mining_reward self) None None) in *.
  set (candidate := Block.new (Block.index head + 1) t_block
                      (Blockchain.mempool self ++ [reward_tx])
                      (Block.hash head) 0 None).
  destruct (proof_of_work_complete k (Blockchain.difficulty self) candidate)
    as [b Hb].
  { unfold candidate. rewrite iter_bump_new.
    apply pow_done_leading_zeros. exact Hk. }
  pose proof (proof_of_work_sound _ _ _ _ Hb)
    as (Hdone & Hidx & _ & Htx & Hprev & _).
  exists b.
  eexists (Blockchain.mk (Blockchain.chain self ++ [b]) _ _ [] _ _).
  split_and!.
  - intros fuel Hfuel. unfold Blockchain.mine_block. rewrite Hlast.
    fold reward_tx. fold candidate.
    replace fuel with (k + (fuel - k))%nat by lia.
    rewrite (proof_of_work_more_fuel _ _ _ _ _ Hb). reflexivity.
  - reflexivity.
  - exact Hidx.
  - exact Hprev.
  - exists reward_tx. split; [exact Htx|]. unfold Spec.is_reward. auto.
  - apply pow_done_leading_zeros. exact Hdone.
  - reflexivity.
Qed.

End Mining.

(** C1, witness: Scenario A.  On the fresh ledger of difficulty 1 the
    candidate with nonce 2 has a leading zero. *)
Lemma mine_block_returns_witness :
  exists (b : Block.t Z) (self' : Blockchain.t Z),
    (forall fuel : nat, (2 <= fuel)%nat ->
       Blockchain.mine_block fuel 1700000001%Z 1700000015%Z "M1" Scenario.fresh
       = Returned (b, self'))
    /\ Blockchain.chain self' = Blockchain.chain Scenario.fresh ++ [b]
    /\ Block.index b = (Block.index (Blockchain.create_genesis_block 1700000000%Z) + 1)%Z
    /\ Block.previous_hash b
       = Block.hash (Blockchain.create_genesis_block 1700000000%Z)
    /\ (exists reward_tx,
          Block.transactions b = Blockchain.mempool Scenario.fresh ++ [reward_tx]
          /\ Spec.is_reward Scenario.fresh "M1" reward_tx)
    /\ (Blockchain.difficulty Scenario.fresh
        <= Z.of_nat (Spec.leading_zeros (Block.hash b)))%Z
    /\ Blockchain.mempool self' = [].
Proof.
  apply (mine_block_returns 2 1700000001%Z 1700000015%Z "M1" Scenario.fresh
           (Blockchain.create_genesis_block 1700000000%Z)).
  - reflexivity.
  - vm_compute. discriminate.
Defined.

(** C1, counterexample.  [Blockchain(difficulty=65)] is a ledger on which
    [mine_block] never returns: a digest has 64 characters, so no nonce
    gives 65 leading zeros. *)
Lemma mine_block_never_returns_at_65 :
  Blockchain.difficulty Scenario.fresh65 = 65%Z
  /\ forall fuel : nat,
       Blockchain.mine_block fuel 1700000001%Z 1700000002%Z "M1" Scenario.fresh65
       = OutOfFuel.
Proof.
  split; [reflexivity|]. intros fuel.
  apply (mine_block_diverges fuel _ _ _ _
           (Blockchain.create_genesis_block 1700000000%Z)).
  - reflexivity.
  - simpl. lia.
Qed.

(* ===================================================================== *)
(** ** Chain replacement and validation *)
(* ===================================================================== *)

Section Consensus.
Context {num : Type} `{PyNumber num}.


(** Overwriting the previous-hash of a block from index 1 on breaks the
    link to its predecessor. *)
Lemma tampered_link_breaks (chain : list (Block.t num)) (i : nat) (v : string)
    (b : Block.t num) :
  Spec.links_ok chain ->
  (1 <= i)%nat ->
  chain !! i = Some b ->
  v <> Block.previous_hash b ->
  ~ Spec.links_ok (Spec.tamper_previous_hash i v chain).
Proof.
  intros Hlinks Hi Hb Hv Htampered.
  destruct (lookup_lt_is_Some_2 chain (i - 1)) as [p Hp].
  { apply lookup_lt_Some in Hb. lia. }
  destruct (Hlinks i b p Hi Hb Hp) as [E1 _].
  destruct (Htampered i (Spec.set_previous_hash v b) p Hi) as [E1' _].
  - unfold Spec.tamper_previous_hash.
    rewrite list_lookup_alter_eq, Hb. reflexivity.
  - unfold Spec.tamper_previous_hash.
    rewrite list_lookup_alter_ne by lia. exact Hp.
  - simpl in E1'. congruence.
Qed.

(** C3, as amended.  In every reachable ledger, [validate_chain(chain)]
    returns true exactly when every block from index 1 on has the hash of
    its predecessor as previous hash and the digest of its own fields as
    hash (for a non-empty argument this holds in any ledger); a
    single-block chain is valid; a chain produced by [mine_block] calls
    alone is valid; and overwriting the previous hash of a block at an
    index of 1 or more in a valid chain makes validation return false. *)
Theorem validate_chain_spec (self : Blockchain.t num)
    (chain : list (Block.t num)) :
  (chain <> [] ->
   (Blockchain.validate_chain (Some chain) self = true <-> Spec.links_ok chain))
  /\ (reachable self ->
      (Blockchain.validate_chain (Some chain) self = true <-> Spec.links_ok chain))
  /\ (forall b, Blockchain.validate_chain (Some [b]) self = true)
  /\ (forall mined : Blockchain.t num,
        reachable_by only_mining mined ->
        Blockchain.validate_chain (Some (Blockchain.chain mined)) self = true)
  /\ (forall (i : nat) (v : string) (b : Block.t num),
        Spec.links_ok chain ->
        (1 <= i)%nat ->
        chain !! i = Some b ->
        v <> Block.previous_hash b ->
        Blockchain.validate_chain
          (Some (Spec.tamper_previous_hash i v chain)) self = false).
Proof.
  split_and!.
  - intros Hne. rewrite validate_chain_links, chain_or_nonempty by exact Hne.
    reflexivity.
  - intros Hreach. rewrite validate_chain_links.
    destruct chain as [|b rest]; [|reflexivity]. simpl.
    apply reachable_by_invariant in Hreach as (_ & Hlinks & _).
    split; intros _; [apply links_ok_nil | exact Hlinks].
  - intros b. apply validate_chain_links. apply links_ok_single.
  - intros mined Hmined.
    apply reachable_by_invariant in Hmined as (Hne & Hlinks & _).
    apply validate_chain_links. rewrite chain_or_nonempty by exact Hne.
    exact Hlinks.
  - intros i v b Hlinks Hi Hb Hv.
    apply not_true_is_false. rewrite validate_chain_links.
    rewrite chain_or_nonempty.
    + eapply tampered_link_breaks; eauto.
    + intros Hnil. apply (f_equal length) in Hnil.
      unfold Spec.tamper_previous_hash in Hnil.
      rewrite length_alter in Hnil. apply lookup_lt_Some in Hb.
      simpl in Hnil. lia.
Qed.

End Consensus.

(** In the chain of Scenario A, overwriting the previous hash of block 1
    is detected. *)
Example tampered_link_detected :
  Blockchain.validate_chain (Some (Blockchain.chain Scenario.after_A))
    Scenario.after_A = true
  /\ Blockchain.validate_chain
       (Some (Spec.tamper_previous_hash 1 "f00d"
                (Blockchain.chain Scenario.after_A)))
       Scenario.after_A = false.
Proof. vm_compute. auto. Qed.

(** C3, counterexample.  In the two-block chain of Scenario A the genesis
    block's previous hash is overwritten, and validation still returns
    true: block 0 is never looked at. *)
Lemma tampered_genesis_passes :
  Block.previous_hash <$> (Blockchain.chain Scenario.after_A !! 0%nat) = Some "0"
  /\ Block.previous_hash
       <$> (Spec.tamper_previous_hash 0 "f00d" (Blockchain.chain Scenario.after_A)
            !! 0%nat) = Some "f00d"
  /\ length (Blockchain.chain Scenario.after_A) = 2%nat
  /\ Blockchain.validate_chain
       (Some (Spec.tamper_previous_hash 0 "f00d"
                (Blockchain.chain Scenario.after_A)))
       Scenario.after_A = true.
Proof. vm_compute. auto. Qed.

(* ===================================================================== *)
(** ** Balances and transaction intake *)
(* ===================================================================== *)

Section Intake.
Context {num : Type} `{PyNumber num}.

(** C4.  In every state reachable by [add_transaction], [mine_block],
    [receive_block] and [replace_chain] calls, the balance table is the
    fold over all transactions of all blocks, in chain order, of: minus
    the amount to the sender unless the sender is "MINING", plus the
    amount to the recipient.  In particular the table [mine_block]
    updates in place is the table [recalculate_balances] computes from
    the resulting chain. *)
Theorem balances_are_the_sum (self : Blockchain.t num) :
  reachable self ->
  Blockchain.balances self = Spec.balance_sum (Blockchain.chain self)
  /\ forall (fuel : nat) (t_reward t_block : num) (miner_address : string)
            (b : Block.t num) (self' : Blockchain.t num),
       Blockchain.mine_block fuel t_reward t_block miner_address self
       = Returned (b, self') ->
       Blockchain.balances self'
       = Blockchain.balances (Blockchain.recalculate_balances self').
Proof.
  intros Hreach. split.
  - apply reachable_by_invariant in Hreach as (_ & _ & ->).
    apply replay_balance_sum.
  - intros fuel t_reward t_block miner_address b self' Hmine.
    assert (Hreach' : reachable self').
    { apply (reach_call _ (MineBlock fuel t_reward t_block miner_address)
               self self' Hreach I).
      simpl. now rewrite Hmine. }
    apply reachable_by_invariant in Hreach' as (_ & _ & ->). reflexivity.
Qed.


End Intake.

(** C4, witness: the ledger of Scenario B (mine, pay, mine). *)
Lemma balances_are_the_sum_witness :
  Blockchain.balances Scenario.after_B
  = Spec.balance_sum (Blockchain.chain Scenario.after_B)
  /\ forall (fuel : nat) (t_reward t_block : Z) (miner_address : string)
            (b : Block.t Z) (self' : Blockchain.t Z),
       Blockchain.mine_block fuel t_reward t_block miner_address Scenario.after_B
       = Returned (b, self') ->
       Blockchain.balances self'
       = Blockchain.balances (Blockchain.recalculate_balances self').
Proof.
  apply (balances_are_the_sum Scenario.after_B).
  apply (reach_call _ (MineBlock 1 1700000017 1700000019 "M2")%Z
           (snd (Blockchain.add_transaction Scenario.tx_B Scenario.after_A)));
    [|exact I | vm_compute; reflexivity].
  apply (reach_call _ (AddTransaction Scenario.tx_B) Scenario.after_A);
    [|exact I | reflexivity].
  apply (reach_call _ (MineBlock 2 1700000001 1700000015 "M1")%Z Scenario.fresh);
    [|exact I | vm_compute; reflexivity].
  apply reach_init.
Defined.

(** Scenarios A, B and C of the specification. *)
Example scenario_A :
  Blockchain.balances Scenario.after_A = {[ "M1" := 10%Z ]}.
Proof. vm_compute. reflexivity. Qed.

Example scenario_B :
  fst (Blockchain.add_transaction Scenario.tx_B Scenario.after_A) = true
  /\ Blockchain.balances Scenario.after_B
     = <[ "M1" := 5%Z ]> (<[ "X" := 5%Z ]> {[ "M2" := 10%Z ]}).
Proof. split; vm_compute; reflexivity. Qed.

Example scenario_C :
  Blockchain.add_transaction
    (Transaction.new 1700000003%Z "Z" "X" 1%Z None None) Scenario.fresh
  = (false, Scenario.fresh).
Proof. vm_compute. reflexivity. Qed.

(** C6, as amended.  The ledger does not look at the sign of the amount.
    A transaction of negative amount whose sender is not "MINING" is
    rejected exactly when the sender's balance is less than that amount;
    a sender whose balance is 0 or more (so also one absent from the
    table) has it accepted, and it enters the mempool.  (Python ints.) *)
Theorem add_transaction_ignores_sign (tx : Transaction.t Z)
    (self : Blockchain.t Z) :
  Transaction.sender tx <> "MINING" ->
  (Transaction.amount tx < 0)%Z ->
  (fst (Blockchain.add_transaction tx self) = false
   <-> (Blockchain.balance_of (Blockchain.balances self) (Transaction.sender tx)
        < Transaction.amount tx)%Z)
  /\ ((0 <= Blockchain.balance_of (Blockchain.balances self)
              (Transaction.sender tx))%Z ->
      Blockchain.add_transaction tx self
      = (true,
         Blockchain.mk (Blockchain.chain self) (Blockchain.difficulty self)
           (Blockchain.mining_reward self) (Blockchain.mempool self ++ [tx])
           (Blockchain.nodes self) (Blockchain.balances self))).
Proof.
  intros Hsender Hneg. unfold Blockchain.add_transaction.
  destruct (String.eqb_spec (Transaction.sender tx) "MINING") as [E|_];
    [contradiction|]. simpl.
  destruct (Z.ltb_spec
              (Blockchain.balance_of (Blockchain.balances self)
                 (Transaction.sender tx))
              (Transaction.amount tx)) as [Hlt|Hge]; simpl.
  - split; [tauto | lia].
  - split; [split; [discriminate | lia] | reflexivity].
Qed.

(** C6, witness: "Z", absent from the table, sends -1. *)
Lemma add_transaction_ignores_sign_witness :
  (fst (Blockchain.add_transaction Scenario.tx_negative Scenario.fresh) = false
   <-> (Blockchain.balance_of (Blockchain.balances Scenario.fresh)
          (Transaction.sender Scenario.tx_negative)
        < Transaction.amount Scenario.tx_negative)%Z)
  /\ ((0 <= Blockchain.balance_of (Blockchain.balances Scenario.fresh)
              (Transaction.sender Scenario.tx_negative))%Z ->
      Blockchain.add_transaction Scenario.tx_negative Scenario.fresh
      = (true,
         Blockchain.mk (Blockchain.chain Scenario.fresh)
           (Blockchain.difficulty Scenario.fresh)
           (Blockchain.mining_reward Scenario.fresh)
           (Blockchain.mempool Scenario.fresh ++ [Scenario.tx_negative])
           (Blockchain.nodes Scenario.fresh)
           (Blockchain.balances Scenario.fresh))).
Proof.
  apply (add_transaction_ignores_sign Scenario.tx_negative Scenario.fresh).
  - simpl. discriminate.
  - simpl. lia.
Defined.

(** C6, counterexample.  The sender is not "MINING", the amount is -1,
    and [add_transaction] returns true with the transaction in the
    mempool. *)
Lemma negative_amount_accepted :
  Transaction.sender Scenario.tx_negative = "Z"
  /\ Transaction.amount Scenario.tx_negative = (-1)%Z
  /\ fst (Blockchain.add_transaction Scenario.tx_negative Scenario.fresh) = true
  /\ Blockchain.mempool
       (snd (Blockchain.add_transaction Scenario.tx_negative Scenario.fresh))
     = [Scenario.tx_negative].
Proof. vm_compute. auto. Qed.

(* ===================================================================== *)
(** ** node.py: blocks and chains from peers *)
(* ===================================================================== *)

Section Peers.
Context {num : Type} `{PyNumber num}.


(** C8, as amended.  In every state reached from a fresh ledger by
    [add_transaction], [mine_block], [receive_block] and by
    [replace_chain] calls whose candidate begins with a genesis-shaped
    block, the chain begins with a block of index 0, without transactions
    and with previous hash "0". *)
Theorem genesis_first_invariant (self : Blockchain.t num) :
  reachable_by genesis_kept self ->
  Spec.genesis_first (Blockchain.chain self).
Proof.
  induction 1 as [now d r | c self self' _ (first & Hfirst & Hshape) Hkept Hexec].
  - exists (Blockchain.create_genesis_block now). split; [reflexivity|].
    unfold Spec.genesis_shaped. auto.
  - destruct (exec_first_block c self self' first Hexec Hfirst)
      as [Hsame | (new_chain & -> & ->)].
    + exists first. auto.
    + exact Hkept.
Qed.

(** C10.  [validate_chain] does not test the proof of work: a non-empty
    chain whose blocks link and carry their own digests passes, even when
    no hash in it has a leading zero, and [replace_chain] installs it as
    soon as it is longer than the ledger's chain. *)
Theorem validate_chain_ignores_difficulty (chain : list (Block.t num))
    (self : Blockchain.t num) :
  chain <> [] ->
  Spec.links_ok chain ->
  Forall (fun b => Spec.leading_zeros (Block.hash b) = 0%nat) chain ->
  Blockchain.validate_chain (Some chain) self = true
  /\ ((length (Blockchain.chain self) < length chain)%nat ->
      Blockchain.replace_chain chain self
      = (true,
         Blockchain.mk chain (Blockchain.difficulty self)
           (Blockchain.mining_reward self) [] (Blockchain.nodes self)
           (Blockchain.replay chain))).
Proof.
  intros Hne Hlinks _.
  assert (Hv : Blockchain.validate_chain (Some chain) self = true).
  { apply validate_chain_links. now rewrite chain_or_nonempty. }
  split; [exact Hv|]. intros Hlen.
  destruct (replace_chain_cases chain self) as [(_ & _ & ->)|(Hno & _)];
    [reflexivity | tauto].
Qed.

(** When [resolve_conflicts] returns false the ledger is untouched, and
    when it returns true the ledger is what [replace_chain] left, called
    on a non-empty chain. *)
Lemma resolve_conflicts_cases (clk : nat -> nat -> nat -> num)
    (responses : list (option (Node.chain_response num)))
    (self : Blockchain.t num) :
  Node.resolve_conflicts clk responses self = (false, self)
  \/ exists new_chain,
       new_chain <> []
       /\ Node.resolve_conflicts clk responses self
          = (true, snd (Blockchain.replace_chain new_chain self)).
Proof.
  unfold Node.resolve_conflicts.
  destruct (Node.scan_peers _ _ _ _ _) as [max_length [[|b rest]|]]; auto.
  right. exists (b :: rest). split; [discriminate | reflexivity].
Qed.

End Peers.


(** Scenario E: a block whose previous hash is not the head's is
    rejected, and the ledger stays as it is. *)
Example scenario_E :
  Node.receive_block Scenario.clk1
    (Block.to_dict (Block.new 1 1700000010%Z [] "beef" 0 None)) Scenario.fresh
  = Raised (HTTPException 400 "Invalid block")
  /\ exec (ReceiveBlock Scenario.clk1
             (Block.to_dict (Block.new 1 1700000010%Z [] "beef" 0 None)))
          Scenario.fresh
     = Some Scenario.fresh.
Proof. vm_compute. auto. Qed.

(** C8, witness: the fresh ledger adopts the chain a peer has mined. *)
Lemma genesis_first_invariant_witness :
  Spec.genesis_first
    (Blockchain.chain
       (snd (Blockchain.replace_chain
               (Blockchain.chain Scenario.peer_after_mining) Scenario.fresh))).
Proof.
  apply (genesis_first_invariant
           (snd (Blockchain.replace_chain
                   (Blockchain.chain Scenario.peer_after_mining) Scenario.fresh))).
  apply (reach_call _ (ReplaceChain (Blockchain.chain Scenario.peer_after_mining))
           Scenario.fresh).
  - apply reach_init.
  - exists (Blockchain.create_genesis_block 1700000030%Z).
    split; [vm_compute; reflexivity | unfold Spec.genesis_shaped; auto].
  - reflexivity.
Defined.

(** C8, counterexample.  [replace_chain] installs a chain whose first
    block has index 7, holds a transaction and has previous hash "feed":
    the resulting ledger is reachable and does not begin with a
    genesis-shaped block. *)
Lemma replace_chain_installs_foreign_first_block :
  reachable (snd (Blockchain.replace_chain Scenario.forged_chain Scenario.fresh))
  /\ fst (Blockchain.replace_chain Scenario.forged_chain Scenario.fresh) = true
  /\ Blockchain.chain
       (snd (Blockchain.replace_chain Scenario.forged_chain Scenario.fresh))
     !! 0%nat = Some Scenario.forged_first
  /\ Block.index Scenario.forged_first = 7%Z
  /\ length (Block.transactions Scenario.forged_first) = 1%nat
  /\ Block.previous_hash Scenario.forged_first = "feed"
  /\ ~ Spec.genesis_first
         (Blockchain.chain
            (snd (Blockchain.replace_chain Scenario.forged_chain Scenario.fresh))).
Proof.
  assert (Hfirst :
    Blockchain.chain
      (snd (Blockchain.replace_chain Scenario.forged_chain Scenario.fresh))
    !! 0%nat = Some Scenario.forged_first) by (vm_compute; reflexivity).
  split_and!.
  - apply (reach_call _ (ReplaceChain Scenario.forged_chain) Scenario.fresh);
      [apply reach_init | exact I | reflexivity].
  - vm_compute. reflexivity.
  - exact Hfirst.
  - reflexivity.
  - reflexivity.
  - reflexivity.
  - intros (b & Hb & Hidx & _). rewrite Hfirst in Hb. injection Hb as <-.
    discriminate Hidx.
Qed.

(** C9, the failing input.  The ledger holds its genesis block; the one
    peer answers with a one-block chain and "length": 5.
    [resolve_conflicts] returns true, yet [replace_chain] has refused the
    candidate and the ledger is the same. *)
Lemma resolve_conflicts_reports_refused_replacement :
  Node.r_length Scenario.overstated = 5%Z
  /\ length (Node.r_chain Scenario.overstated) = 1%nat
  /\ Blockchain.replace_chain
       (Node.chain_from_dicts Scenario.clk2 (Node.r_chain Scenario.overstated))
       Scenario.fresh
     = (false, Scenario.fresh)
  /\ Node.resolve_conflicts Scenario.clk3 [Some Scenario.overstated] Scenario.fresh
     = (true, Scenario.fresh).
Proof. vm_compute. auto. Qed.

(** C10, witness: two linked blocks with nonce 0 and no leading zero,
    offered to a ledger of difficulty 4. *)
Lemma validate_chain_ignores_difficulty_witness :
  Blockchain.validate_chain (Some Scenario.unmined_chain) Scenario.strict = true
  /\ ((length (Blockchain.chain Scenario.strict)
       < length Scenario.unmined_chain)%nat ->
      Blockchain.replace_chain Scenario.unmined_chain Scenario.strict
      = (true,
         Blockchain.mk Scenario.unmined_chain
           (Blockchain.difficulty Scenario.strict)
           (Blockchain.mining_reward Scenario.strict) []
           (Blockchain.nodes Scenario.strict)
           (Blockchain.replay Scenario.unmined_chain))).
Proof.
  apply (validate_chain_ignores_difficulty Scenario.unmined_chain Scenario.strict).
  - discriminate.
  - apply validate_loop_links. vm_compute. reflexivity.
  - repeat constructor; vm_compute; reflexivity.
Defined.

(* ===================================================================== *)
(** ** Further properties the specification lists *)
(* ===================================================================== *)

Section Further.
Context {num : Type} `{PyNumber num}.

(** X1.  [resolve_conflicts] leaves the ledger untouched when it returns
    false, and when it returns true the ledger is whatever
    [replace_chain] left, called once on a non-empty candidate. *)
Theorem resolve_conflicts_effect (clk : nat -> nat -> nat -> num)
    (responses : list (option (Node.chain_response num)))
    (self : Blockchain.t num) :
  (fst (Node.resolve_conflicts clk responses self) = false ->
   snd (Node.resolve_conflicts clk responses self) = self)
  /\ (fst (Node.resolve_conflicts clk responses self) = true ->
      exists new_chain,
        new_chain <> []
        /\ snd (Node.resolve_conflicts clk responses self)
           = snd (Blockchain.replace_chain new_chain self)).
Proof.
  destruct (resolve_conflicts_cases clk responses self)
    as [-> | (new_chain & Hne & ->)]; simpl; split; try done.
  intros _. eauto.
Qed.

End Further.

(** Scenario D: two chains of equal length, each mined on its own node;
    neither ledger takes the other's chain. *)
Theorem scenario_D :
  length (Blockchain.chain Scenario.after_A)
  = length (Blockchain.chain Scenario.peer_after_mining)
  /\ Blockchain.replace_chain (Blockchain.chain Scenario.peer_after_mining)
       Scenario.after_A = (false, Scenario.after_A)
  /\ Blockchain.replace_chain (Blockchain.chain Scenario.after_A)
       Scenario.peer_after_mining = (false, Scenario.peer_after_mining).
Proof. vm_compute. auto. Qed.

(* ===================================================================== *)
(** ** Blocks on the wire *)
(* ===================================================================== *)

Section WireFacts.
Context {num : Type} `{PyNumber num}.

Lemma transaction_round_trip (now : num) (tx : Transaction.t num) :
  Wire.tx_kept tx = true ->
  Transaction.from_dict now (Transaction.to_dict tx) = tx.
Proof.
  unfold Wire.tx_kept. intros [Hts Hid]%andb_true_iff.
  destruct tx as [s r a ts id]. simpl in *.
  unfold Transaction.from_dict, Transaction.new. simpl.
  rewrite Hts, Hid. reflexivity.
Qed.

Lemma transactions_round_trip (clk : nat -> num) (txs : list (Transaction.t num)) :
  forallb Wire.tx_kept txs = true ->
  imap (fun i tx => Transaction.from_dict (clk i) tx)
       (map Transaction.to_dict txs) = txs.
Proof.
  revert clk. induction txs as [|tx txs IH]; intros clk Hall; [reflexivity|].
  simpl in Hall. apply andb_true_iff in Hall as [Htx Hall].
  simpl. rewrite transaction_round_trip by exact Htx. f_equal.
  apply (IH (fun i => clk (S i))). exact Hall.
Qed.


(** A block whose hash is not empty and whose transactions all have
    a truthy timestamp and a non-empty txid comes back unchanged from
    [Block.from_dict(block.to_dict())], whatever the clock shows. *)
Lemma block_round_trip_aux (clk : nat -> num) (b : Block.t num) :
  Wire.block_kept b = true ->
  Block.from_dict clk (Block.to_dict b) = b.
Proof.
  unfold Wire.block_kept. intros [Hh Htxs]%andb_true_iff.
  destruct b as [i ts txs p n h]. simpl in *.
  unfold Block.from_dict, Block.new. simpl.
  rewrite transactions_round_trip by exact Htxs. rewrite Hh. reflexivity.
Qed.

(** A transaction whose timestamp is falsy (zero) does not survive the
    wire: rebuilt from its own [to_dict()], it carries the clock reading
    of the receiver instead, and the txid it was sent with. *)
Lemma falsy_timestamp_replaced (now : num) (tx : Transaction.t num) :
  num_bool (Transaction.timestamp tx) = false ->
  Py.str_bool (Transaction.txid tx) = true ->
  Transaction.from_dict now (Transaction.to_dict tx)
  = Transaction.mk (Transaction.sender tx) (Transaction.recipient tx)
      (Transaction.amount tx) now (Transaction.txid tx).
Proof.
  intros Hts Hid. destruct tx as [s r a ts id]. simpl in *.
  unfold Transaction.from_dict, Transaction.new. simpl.
  rewrite Hts, Hid. reflexivity.
Qed.

(** X2.  [from_dict(to_dict())] gives back a transaction whose
    timestamp and txid are truthy, and a block whose hash is not empty
    and whose transactions are all such, whatever the clock shows; a
    transaction whose timestamp is zero comes back with the receiver's
    clock reading instead. *)
Theorem wire_round_trip (now : num) (clk : nat -> num)
    (tx : Transaction.t num) (b : Block.t num) :
  (Wire.tx_kept tx = true ->
   Transaction.from_dict now (Transaction.to_dict tx) = tx)
  /\ (Wire.block_kept b = true ->
      Block.from_dict clk (Block.to_dict b) = b)
  /\ (num_bool (Transaction.timestamp tx) = false ->
      Py.str_bool (Transaction.txid tx) = true ->
      Transaction.timestamp (Transaction.from_dict now (Transaction.to_dict tx))
      = now).
Proof.
  split_and!.
  - apply transaction_round_trip.
  - apply block_round_trip_aux.
  - intros Hts Hid. rewrite falsy_timestamp_replaced by assumption.
    reflexivity.
Qed.




End WireFacts.

(* ===================================================================== *)
(** ** What no call does *)
(* ===================================================================== *)

Section Frames.
Context {num : Type} `{PyNumber num}.

(** X5.  No call shortens the chain or rewrites it in place: after any
    call the chain is at least as long as before, a chain of the same
    length is the same chain, and unless the call is [replace_chain] the
    old chain is a prefix of the new one. *)
Theorem chain_only_grows (c : call num) (self self' : Blockchain.t num) :
  exec c self = Some self' ->
  (length (Blockchain.chain self) <= length (Blockchain.chain self'))%nat
  /\ (length (Blockchain.chain self') = length (Blockchain.chain self) ->
      Blockchain.chain self' = Blockchain.chain self)
  /\ ((forall new_chain, c <> ReplaceChain new_chain) ->
      Blockchain.chain self `prefix_of` Blockchain.chain self').
Proof.
  intros Hexec.
  apply exec_chain in Hexec
    as [(-> & _) | [(head & b & _ & _ & _ & -> & _)
                    | (new_chain & -> & Hlen & _ & -> & _)]].
  - split_and!; auto.
  - rewrite length_app. simpl. split_and!.
    + lia.
    + intros ?. lia.
    + intros _. apply prefix_app_r. reflexivity.
  - split_and!.
    + lia.
    + intros ?. lia.
    + intros Hno. exfalso. eapply Hno. reflexivity.
Qed.

(** X6.  No call changes the difficulty or the mining reward, and only
    [register_node] changes the set of peers. *)
Theorem settings_never_change (c : call num) (self self' : Blockchain.t num) :
  exec c self = Some self' ->
  Blockchain.difficulty self' = Blockchain.difficulty self
  /\ Blockchain.mining_reward self' = Blockchain.mining_reward self
  /\ ((forall address, c <> RegisterNode address) ->
      Blockchain.nodes self' = Blockchain.nodes self).
Proof.
  destruct c as [tx|fuel t_reward t_block miner|clk data|new_chain|address];
    simpl; intros Hexec.
  - injection Hexec as <-. unfold Blockchain.add_transaction.
    destruct (negb _); [destruct (num_lt _ _)|]; simpl; auto.
  - destruct (Blockchain.mine_block _ _ _ _ _) as [[b st]|e|] eqn:Em;
      [|injection Hexec as <-; auto | discriminate].
    injection Hexec as <-.
    apply mine_block_returned in Em as (head & _ & _ & ->). simpl. auto.
  - destruct (Node.receive_block _ _ _) as [[msg st]|e|] eqn:Er;
      [|injection Hexec as <-; auto | discriminate].
    injection Hexec as <-.
    apply receive_block_returned in Er as (head & _ & _ & _ & _ & ->).
    simpl. auto.
  - injection Hexec as <-.
    destruct (replace_chain_cases new_chain self) as [(_ & _ & ->)|(_ & ->)];
      simpl; auto.
  - injection Hexec as <-. simpl. split_and!; auto.
    intros Hno. exfalso. eapply Hno. reflexivity.
Qed.

(** X7.  In every reachable ledger the chain has a last block, so
    [get_last_block] (and with it [mine_block] and [receive_block]) never
    raises IndexError, and the ledger's own chain passes
    [validate_chain()]. *)
Theorem reachable_chain_sound (self : Blockchain.t num) :
  reachable self ->
  (exists head, Blockchain.get_last_block self = Some head)
  /\ Blockchain.validate_chain None self = true
  /\ (forall fuel t_reward t_block miner_address,
        Blockchain.mine_block fuel t_reward t_block miner_address self
        <> Raised IndexError)
  /\ (forall clk block_data,
        Node.receive_block clk block_data self <> Raised IndexError).
Proof.
  intros Hreach.
  apply reachable_by_invariant in Hreach as (Hne & Hlinks & _).
  assert (Hhead : exists head, Blockchain.get_last_block self = Some head).
  { unfold Blockchain.get_last_block.
    destruct (Blockchain.chain self) as [|b rest] using rev_ind;
      [contradiction|]. rewrite last_snoc. eauto. }
  destruct Hhead as [head Hhead]. split_and!.
  - eauto.
  - apply validate_chain_links. exact Hlinks.
  - intros fuel t_reward t_block miner_address.
    unfold Blockchain.mine_block. rewrite Hhead.
    destruct (Blockchain.proof_of_work _ _ _); discriminate.
  - intros clk block_data. unfold Node.receive_block. rewrite Hhead.
    destruct (_ && _); discriminate.
Qed.

(** X8.  A chain built by [mine_block] alone has its blocks numbered
    0, 1, 2, ...; every block after the first has a hash with at least
    [difficulty] leading zeros and ends with a reward transaction from
    "MINING" over the mining reward. *)
Theorem mined_chain_shape (self : Blockchain.t num) :
  reachable_by only_mining self ->
  (forall (i : nat) (b : Block.t num),
     Blockchain.chain self !! i = Some b -> Block.index b = Z.of_nat i)
  /\ (forall (i : nat) (b : Block.t num),
        (1 <= i)%nat ->
        Blockchain.chain self !! i = Some b ->
        (Blockchain.difficulty self
         <= Z.of_nat (Spec.leading_zeros (Block.hash b)))%Z
        /\ exists txs reward_tx,
             Block.transactions b = txs ++ [reward_tx]
             /\ Transaction.sender reward_tx = "MINING"
             /\ Transaction.amount reward_tx = Blockchain.mining_reward self).
Proof.
  induction 1 as [now d r | c self self' _ [IHidx IHpow] Hallowed Hexec].
  - split.
    + intros [|i] b Hb; [|discriminate]. injection Hb as <-. reflexivity.
    + intros [|i] b Hi Hb; [lia | discriminate].
  - destruct c as [tx|fuel t_reward t_block miner|clk data|new_chain|address];
      try contradiction. simpl in Hexec.
    destruct (Blockchain.mine_block _ _ _ _ _) as [[b st]|e|] eqn:Em;
      [|injection Hexec as <-; auto | discriminate].
    injection Hexec as <-.
    apply mine_block_returned in Em as (head & Hlast & Hpow & ->).
    apply proof_of_work_sound in Hpow as (Hdone & Hidx & _ & Htx & _ & _).
    unfold Blockchain.get_last_block in Hlast. rewrite last_lookup in Hlast.
    assert (Hpos : (0 < length (Blockchain.chain self))%nat).
    { apply lookup_lt_Some in Hlast.
      destruct (Blockchain.chain self); simpl in *; lia. }
    simpl. split.
    + intros i b' Hb'.
      destruct (decide (i < length (Blockchain.chain self))%nat) as [Hlt|Hge].
      * rewrite lookup_app_l in Hb' by exact Hlt. exact (IHidx i b' Hb').
      * pose proof (lookup_lt_Some _ _ _ Hb') as Hlen.
        rewrite length_app in Hlen. simpl in Hlen.
        assert (i = length (Blockchain.chain self)) as -> by lia.
        rewrite lookup_app_r, Nat.sub_diag in Hb' by lia.
        injection Hb' as <-. rewrite Hidx. simpl.
        rewrite (IHidx _ _ Hlast). lia.
    + intros i b' Hi Hb'.
      destruct (decide (i < length (Blockchain.chain self))%nat) as [Hlt|Hge].
      * rewrite lookup_app_l in Hb' by exact Hlt. exact (IHpow i b' Hi Hb').
      * pose proof (lookup_lt_Some _ _ _ Hb') as Hlen.
        rewrite length_app in Hlen. simpl in Hlen.
        assert (i = length (Blockchain.chain self)) as -> by lia.
        rewrite lookup_app_r, Nat.sub_diag in Hb' by lia.
        injection Hb' as <-. split.
        -- apply pow_done_leading_zeros. exact Hdone.
        -- rewrite Htx. simpl. eauto.
Qed.

(** A submission changes the mempool only, and whether it is accepted
    depends on the balance table alone. *)
Lemma add_transaction_same_table (tx : Transaction.t num)
    (self other : Blockchain.t num) :
  Blockchain.balances other = Blockchain.balances self ->
  fst (Blockchain.add_transaction tx other)
  = fst (Blockchain.add_transaction tx self).
Proof.
  intros Hbal. unfold Blockchain.add_transaction. rewrite Hbal.
  destruct (negb _); [destruct (num_lt _ _)|]; reflexivity.
Qed.

Lemma submissions_from (txs : list (Transaction.t num))
    (self s : Blockchain.t num) :
  Blockchain.balances s = Blockchain.balances self ->
  Blockchain.mempool
    (fold_left (fun s tx => snd (Blockchain.add_transaction tx s)) txs s)
  = Blockchain.mempool s
    ++ List.filter (fun tx => fst (Blockchain.add_transaction tx self)) txs
  /\ Blockchain.chain
       (fold_left (fun s tx => snd (Blockchain.add_transaction tx s)) txs s)
     = Blockchain.chain s
  /\ Blockchain.balances
       (fold_left (fun s tx => snd (Blockchain.add_transaction tx s)) txs s)
     = Blockchain.balances s.
Proof.
  revert s. induction txs as [|tx txs IH]; intros s Hbal.
  - simpl. rewrite app_nil_r. auto.
  - cbn [fold_left List.filter].
    rewrite <- (add_transaction_same_table tx self s Hbal).
    assert (Hstep :
      Blockchain.balances (snd (Blockchain.add_transaction tx s))
      = Blockchain.balances s
      /\ Blockchain.chain (snd (Blockchain.add_transaction tx s))
         = Blockchain.chain s
      /\ Blockchain.mempool (snd (Blockchain.add_transaction tx s))
         = Blockchain.mempool s
           ++ (if fst (Blockchain.add_transaction tx s) then [tx] else [])).
    { unfold Blockchain.add_transaction.
      destruct (negb _); [destruct (num_lt _ _)|]; simpl;
        rewrite ?app_nil_r; auto. }
    destruct Hstep as (Hb & Hc & Hm).
    destruct (IH (snd (Blockchain.add_transaction tx s))) as (IHm & IHc & IHb);
      [congruence|].
    rewrite IHm, IHc, IHb, Hm, Hb, Hc. split_and!; auto.
    destruct (fst (Blockchain.add_transaction tx s)); simpl.
    + now rewrite <- app_assoc.
    + now rewrite app_nil_r.
Qed.

(** X9.  A run of submissions is filtered against one and the same
    balance table: of the transactions submitted since the chain last
    changed, the mempool holds, in submission order, exactly those that
    [add_transaction] would accept on their own; the chain and the
    balances stay as they are. *)
Theorem submissions_are_filtered (txs : list (Transaction.t num))
    (self : Blockchain.t num) :
  Blockchain.mempool
    (fold_left (fun s tx => snd (Blockchain.add_transaction tx s)) txs self)
  = Blockchain.mempool self
    ++ List.filter (fun tx => fst (Blockchain.add_transaction tx self)) txs
  /\ Blockchain.chain
       (fold_left (fun s tx => snd (Blockchain.add_transaction tx s)) txs self)
     = Blockchain.chain self
  /\ Blockchain.balances
       (fold_left (fun s tx => snd (Blockchain.add_transaction tx s)) txs self)
     = Blockchain.balances self.
Proof. apply submissions_from. reflexivity. Qed.

End Frames.

(* ===================================================================== *)
(** ** resolve_conflicts, peer by peer *)
(* ===================================================================== *)

Section Resolve.
Context {num : Type} `{PyNumber num}.

Lemma chain_from_dicts_length (clk : nat -> nat -> num)
    (data : list (Block.model num)) :
  length (Node.chain_from_dicts clk data) = length data.
Proof. apply length_imap. Qed.

Lemma scan_peers_app (self : Blockchain.t num) (i : nat)
    (clk : nat -> nat -> nat -> num)
    (rs1 rs2 : list (option (Node.chain_response num)))
    (acc : Z * option (list (Block.t num))) :
  Node.scan_peers self i clk (rs1 ++ rs2) acc
  = Node.scan_peers self (i + length rs1) clk rs2
      (Node.scan_peers self i clk rs1 acc).
Proof.
  revert i acc. induction rs1 as [|r rs1 IH]; intros i acc; simpl.
  - now rewrite Nat.add_0_r.
  - rewrite IH. f_equal. lia.
Qed.

(** Answers that report no more than the best length so far are passed
    over. *)
Lemma scan_peers_skips (self : Blockchain.t num) (i : nat)
    (clk : nat -> nat -> nat -> num)
    (rs : list (option (Node.chain_response num)))
    (m : Z) (oc : option (list (Block.t num))) :
  Forall (fun r => match r with
                   | Some data => (Node.r_length data <= m)%Z
                   | None => True
                   end) rs ->
  Node.scan_peers self i clk rs (m, oc) = (m, oc).
Proof.
  revert i. induction rs as [|r rs IH]; intros i Hall; [reflexivity|].
  apply Forall_cons in Hall as [Hr Hall]. simpl.
  destruct r as [data|]; simpl.
  - destruct (Z.ltb_spec m (Node.r_length data)); [lia|]. simpl. now apply IH.
  - now apply IH.
Qed.

(** The best length never passes a bound that every answer respects. *)
Lemma scan_peers_below (self : Blockchain.t num) (i : nat)
    (clk : nat -> nat -> nat -> num)
    (rs : list (option (Node.chain_response num)))
    (bound m : Z) (oc : option (list (Block.t num))) :
  Forall (fun r => match r with
                   | Some data => (Node.r_length data < bound)%Z
                   | None => True
                   end) rs ->
  (m < bound)%Z ->
  (fst (Node.scan_peers self i clk rs (m, oc)) < bound)%Z.
Proof.
  revert i m oc. induction rs as [|r rs IH]; intros i m oc Hall Hm;
    [exact Hm|].
  apply Forall_cons in Hall as [Hr Hall]. simpl.
  destruct r as [data|]; simpl; [|now apply IH].
  destruct (_ && _); now apply IH.
Qed.

(** X10.  One answer with an empty chain and an overstated length stops
    consensus: if it reports more than the local length and more than
    every answer scanned before, and no later answer reports more, then
    [resolve_conflicts] returns false and the ledger keeps its chain,
    whatever chains the other peers sent. *)
Theorem empty_chain_answer_blocks_consensus
    (clk : nat -> nat -> nat -> num) (self : Blockchain.t num)
    (before after : list (option (Node.chain_response num)))
    (poison : Node.chain_response num) :
  Blockchain.validate_chain None self = true ->
  Node.r_chain poison = [] ->
  (Z.of_nat (length (Blockchain.chain self)) < Node.r_length poison)%Z ->
  Forall (fun r => match r with
                   | Some data => (Node.r_length data < Node.r_length poison)%Z
                   | None => True
                   end) before ->
  Forall (fun r => match r with
                   | Some data => (Node.r_length data <= Node.r_length poison)%Z
                   | None => True
                   end) after ->
  Node.resolve_conflicts clk (before ++ Some poison :: after) self
  = (false, self).
Proof.
  intros Hown Hempty Hlocal Hbefore Hafter.
  unfold Node.resolve_conflicts. rewrite scan_peers_app.
  pose proof (scan_peers_below self 0 clk before (Node.r_length poison)
                (Z.of_nat (length (Blockchain.chain self))) None
                Hbefore Hlocal) as Hmax.
  destruct (Node.scan_peers self 0 clk before _) as [m oc]. simpl in Hmax.
  cbn [Node.scan_peers]. unfold Node.scan_peer. rewrite Hempty.
  destruct (Z.ltb_spec m (Node.r_length poison)); [|lia].
  change (Node.chain_from_dicts (clk (0 + length before)%nat) [])
    with (@nil (Block.t num)).
  change (Blockchain.validate_chain (Some []) self)
    with (Blockchain.validate_chain None self).
  rewrite Hown. simpl.
  rewrite scan_peers_skips by exact Hafter. reflexivity.
Qed.

(** The loop over answers that report their true length. *)
Lemma scan_peers_honest (self : Blockchain.t num)
    (clk : nat -> nat -> nat -> num)
    (rs : list (option (Node.chain_response num))) :
  Forall Node.honest rs ->
  forall (i : nat) (m : Z) (oc : option (list (Block.t num))),
    (Z.of_nat (length (Blockchain.chain self)) <= m)%Z ->
    match oc with
    | Some c => m = Z.of_nat (length c) /\ Spec.links_ok c
                /\ (length (Blockchain.chain self) < length c)%nat
    | None => m = Z.of_nat (length (Blockchain.chain self))
    end ->
    exists m' oc',
      Node.scan_peers self i clk rs (m, oc) = (m', oc')
      /\ (m <= m')%Z
      /\ match oc' with
         | Some c => m' = Z.of_nat (length c) /\ Spec.links_ok c
                     /\ (length (Blockchain.chain self) < length c)%nat
         | None => m' = Z.of_nat (length (Blockchain.chain self))
         end
      /\ (oc' = oc \/ exists c, oc' = Some c /\ c ∈ Node.candidates i clk rs)
      /\ (forall c, c ∈ Node.candidates i clk rs ->
            Spec.links_ok c -> (Z.of_nat (length c) <= m')%Z).
Proof.
  induction 1 as [|r rs Hr _ IH]; intros i m oc Hm Hoc.
  - exists m, oc. simpl. split_and!; auto; try lia.
    intros c Hc. apply elem_of_nil in Hc. contradiction.
  - cbn [Node.scan_peers Node.candidates]. destruct r as [data|].
    + set (c := Node.chain_from_dicts (clk i) (Node.r_chain data)).
      assert (Hlen : Node.r_length data = Z.of_nat (length c)).
      { unfold c. rewrite chain_from_dicts_length. exact Hr. }
      unfold Node.scan_peer. fold c. rewrite Hlen.
      destruct (Z.ltb_spec m (Z.of_nat (length c))) as [Hlt|Hge]; simpl.
      * assert (Hne : c <> []).
        { intros Hnil. rewrite Hnil in Hlt. simpl in Hlt. lia. }
        destruct (Blockchain.validate_chain (Some c) self) eqn:Ev.
        -- apply validate_chain_links in Ev.
           rewrite chain_or_nonempty in Ev by exact Hne.
           destruct (IH (S i) (Z.of_nat (length c)) (Some c))
             as (m' & oc' & Hscan & Hle & Hoc' & Hfrom & Hmax);
             [lia | split_and!; auto; lia |].
           exists m', oc'. split_and!; auto; try lia.
           ++ right. destruct Hfrom as [-> | (c' & -> & Hc')].
              ** exists c. split; [reflexivity | apply elem_of_cons; now left].
              ** exists c'. split; [reflexivity | apply elem_of_cons; now right].
           ++ intros c' [-> | Hc']%elem_of_cons Hl; [lia | auto].
        -- destruct (IH (S i) m oc)
             as (m' & oc' & Hscan & Hle & Hoc' & Hfrom & Hmax); auto.
           exists m', oc'. split_and!; auto.
           ++ destruct Hfrom as [-> | (c' & -> & Hc')]; [now left|].
              right. exists c'. split; [reflexivity | apply elem_of_cons; now right].
           ++ intros c' [-> | Hc']%elem_of_cons Hl; [|auto].
              exfalso. apply not_true_iff_false in Ev. apply Ev.
              apply validate_chain_links.
              now rewrite chain_or_nonempty.
      * destruct (IH (S i) m oc)
          as (m' & oc' & Hscan & Hle & Hoc' & Hfrom & Hmax); auto.
        exists m', oc'. split_and!; auto.
        -- destruct Hfrom as [-> | (c' & -> & Hc')]; [now left|].
           right. exists c'. split; [reflexivity | apply elem_of_cons; now right].
        -- intros c' [-> | Hc']%elem_of_cons Hl; [lia | auto].
    + simpl. apply IH; auto.
Qed.

(** The loop and [replace_chain] together, for honest answers. *)
Lemma resolve_conflicts_honest_cases (clk : nat -> nat -> nat -> num)
    (responses : list (option (Node.chain_response num)))
    (self : Blockchain.t num) :
  Forall Node.honest responses ->
  (Node.resolve_conflicts clk responses self = (false, self)
   /\ forall c, c ∈ Node.candidates 0 clk responses ->
        Spec.links_ok c ->
        (length c <= length (Blockchain.chain self))%nat)
  \/ exists c,
       c ∈ Node.candidates 0 clk responses
       /\ Spec.links_ok c
       /\ (length (Blockchain.chain self) < length c)%nat
       /\ (forall c', c' ∈ Node.candidates 0 clk responses ->
             Spec.links_ok c' -> (length c' <= length c)%nat)
       /\ Node.resolve_conflicts clk responses self
          = (true,
             Blockchain.mk c (Blockchain.difficulty self)
               (Blockchain.mining_reward self) [] (Blockchain.nodes self)
               (Blockchain.replay c)).
Proof.
  intros Hhonest.
  destruct (scan_peers_honest self clk responses Hhonest 0
              (Z.of_nat (length (Blockchain.chain self))) None)
    as (m' & oc' & Hscan & Hle & Hoc' & Hfrom & Hmax); [lia | reflexivity |].
  unfold Node.resolve_conflicts. rewrite Hscan.
  destruct oc' as [c|].
  - destruct Hoc' as (-> & Hlinks & Hlt).
    destruct Hfrom as [? | (c' & [= <-] & Hin)]; [discriminate|].
    right. exists c. split_and!; auto.
    + intros c' Hc' Hl. specialize (Hmax c' Hc' Hl). lia.
    + destruct c as [|b rest]; [simpl in Hlt; lia|].
      destruct (replace_chain_cases (b :: rest) self)
        as [(_ & _ & ->)|(Hno & _)]; [reflexivity|].
      exfalso. apply Hno. split; [exact Hlt|].
      apply validate_chain_links. exact Hlinks.
  - left. subst m'. split; [reflexivity|].
    intros c Hc Hl. specialize (Hmax c Hc Hl). lia.
Qed.

(** X11.  When every peer reports the true length of the chain it sends,
    [resolve_conflicts] does what its result says.  Either it returns
    false, the ledger is unchanged, GET /nodes/resolve answers "Chain is
    authoritative" and no peer sent a linked chain longer than the local
    one; or it returns true, the answer is "Chain replaced" and the
    ledger now holds a peer's chain that is linked, strictly longer than
    the old local chain and at least as long as every linked chain a peer
    sent, with the balances replayed from it and an empty mempool. *)
Theorem resolve_conflicts_honest (clk : nat -> nat -> nat -> num)
    (responses : list (option (Node.chain_response num)))
    (self : Blockchain.t num) :
  Forall Node.honest responses ->
  (Node.resolve_conflicts clk responses self = (false, self)
   /\ Node.consensus clk responses self
      = (("Chain is authoritative", Blockchain.to_dict self), self)
   /\ forall c, c ∈ Node.candidates 0 clk responses ->
        Spec.links_ok c ->
        (length c <= length (Blockchain.chain self))%nat)
  \/ exists c,
       c ∈ Node.candidates 0 clk responses
       /\ Spec.links_ok c
       /\ (length (Blockchain.chain self) < length c)%nat
       /\ (forall c', c' ∈ Node.candidates 0 clk responses ->
             Spec.links_ok c' -> (length c' <= length c)%nat)
       /\ Node.resolve_conflicts clk responses self
          = (true,
             Blockchain.mk c (Blockchain.difficulty self)
               (Blockchain.mining_reward self) [] (Blockchain.nodes self)
               (Blockchain.replay c))
       /\ fst (fst (Node.consensus clk responses self)) = "Chain replaced".
Proof.
  intros Hhonest. unfold Node.consensus.
  destruct (resolve_conflicts_honest_cases clk responses self Hhonest)
    as [(Hres & Hmax) | (c & Hin & Hlinks & Hlt & Hmax & Hres)].
  - left. rewrite Hres. auto.
  - right. exists c. rewrite Hres. split_and!; auto.
Qed.


End Resolve.

(* ===================================================================== *)
(** ** What the balance check lets through *)
(* ===================================================================== *)

Section Minting.
Context {num : Type} `{PyNumber num}.

Lemma balance_of_insert (table : gmap string num) (who other : string) (v : num) :
  Blockchain.balance_of (<[other := v]> table) who
  = if decide (other = who) then v else Blockchain.balance_of table who.
Proof.
  unfold Blockchain.balance_of. rewrite lookup_insert.
  destruct (decide (other = who)); reflexivity.
Qed.

(** A transaction from "MINING" credits the recipient and nobody else. *)
Lemma update_balances_coinbase (table : gmap string num)
    (tx : Transaction.t num) (who : string) :
  Transaction.sender tx = "MINING" ->
  Blockchain.balance_of (Blockchain.update_balances table tx) who
  = if decide (Transaction.recipient tx = who)
    then num_add (Blockchain.balance_of table who) (Transaction.amount tx)
    else Blockchain.balance_of table who.
Proof.
  intros Hs. unfold Blockchain.update_balances. rewrite Hs. simpl.
  rewrite balance_of_insert. destruct (decide _) as [->|]; reflexivity.
Qed.

(** X13.  Anybody can mint: a transaction with sender "MINING" posted to
    /transactions/new is accepted whatever the balances, and once the
    next block is mined (by a miner other than the recipient, from a
    mempool that held nothing else) the recipient's balance has grown by
    the posted amount. *)
Theorem posted_coinbase_mints (now : num) (recipient : string) (amount : num)
    (timestamp : option num) (txid : option string)
    (fuel : nat) (t_reward t_block : num) (miner_address : string)
    (self : Blockchain.t num) :
  Blockchain.mempool self = [] ->
  miner_address <> recipient ->
  exists pending,
    Node.new_transaction now
      (Transaction.mk_model "MINING" recipient amount timestamp txid) self
    = Returned ("Transaction will be added to the next block.", pending)
    /\ forall b self',
         Blockchain.mine_block fuel t_reward t_block miner_address pending
         = Returned (b, self') ->
         Blockchain.balance_of (Blockchain.balances self') recipient
         = num_add (Blockchain.balance_of (Blockchain.balances self) recipient)
                   amount.
Proof.
  intros Hpool Hminer. unfold Node.new_transaction, Blockchain.add_transaction.
  simpl. eexists. split; [reflexivity|].
  intros b self' Hmine.
  apply mine_block_returned in Hmine as (head & _ & _ & ->). simpl.
  rewrite Hpool. simpl.
  rewrite update_balances_coinbase by reflexivity. simpl.
  rewrite decide_False by exact Hminer.
  rewrite update_balances_coinbase by reflexivity. simpl.
  rewrite decide_True by reflexivity. reflexivity.
Qed.

End Minting.

Section Overdraft.

Local Open Scope Z_scope.





(** *** The total of all balances *)






End Overdraft.

(* ===================================================================== *)
(** ** Ledgers on the wire, peers, processes, sockets *)
(* ===================================================================== *)

Section LedgerWire.
Context {num : Type} `{PyNumber num}.

Lemma chain_round_trip (clk : nat -> nat -> num) (chain : list (Block.t num)) :
  forallb Wire.block_kept chain = true ->
  imap (fun j b => Block.from_dict (clk j) b) (map Block.to_dict chain) = chain.
Proof.
  revert clk. induction chain as [|b chain IH]; intros clk Hall; [reflexivity|].
  simpl in Hall. apply andb_true_iff in Hall as [Hb Hall].
  simpl. rewrite block_round_trip_aux by exact Hb. f_equal.
  apply (IH (fun j => clk (S j))). exact Hall.
Qed.

(** X16.  [Blockchain.from_dict(to_dict())] brings back the chain, the
    difficulty and the peer set, and balances replayed from the chain;
    it does not bring back the mempool (empty) nor the mining reward
    (the constructor's default).  The blocks must be wire-safe. *)
Theorem blockchain_round_trip (now default_mining_reward : num)
    (clk : nat -> nat -> num) (self : Blockchain.t num) :
  forallb Wire.block_kept (Blockchain.chain self) = true ->
  Blockchain.from_dict now default_mining_reward clk (Blockchain.to_dict self)
  = Blockchain.mk (Blockchain.chain self) (Blockchain.difficulty self)
      default_mining_reward [] (Blockchain.nodes self)
      (Blockchain.replay (Blockchain.chain self)).
Proof.
  intros Hkept. unfold Blockchain.from_dict, Blockchain.to_dict,
    Blockchain.recalculate_balances. simpl.
  rewrite chain_round_trip by exact Hkept.
  rewrite list_to_set_elements_L. reflexivity.
Qed.

(** What [get_chain] answers is honest. *)
Lemma get_chain_honest (self : Blockchain.t num) :
  Node.honest (Some (Node.response_of (Node.get_chain self))).
Proof. simpl. now rewrite length_map. Qed.

Lemma register_all (nodes : list string) (self : Blockchain.t num) :
  fold_left (fun blockchain node => Blockchain.register_node node blockchain)
            nodes self
  = Blockchain.mk (Blockchain.chain self) (Blockchain.difficulty self)
      (Blockchain.mining_reward self) (Blockchain.mempool self)
      (list_to_set nodes ∪ Blockchain.nodes self) (Blockchain.balances self).
Proof.
  revert self. induction nodes as [|node nodes IH]; intros self.
  - simpl. rewrite (left_id_L ∅ (∪)). now destruct self.
  - cbn [fold_left]. rewrite IH. simpl. f_equal.
    rewrite (assoc_L (∪)), (comm_L (∪) (list_to_set nodes)). reflexivity.
Qed.

(** X17.  POST /nodes/register answers 400 "No nodes provided." exactly
    for an empty list and then leaves the ledger alone; otherwise it adds
    the listed addresses to the peer set -- duplicates and addresses
    already known change nothing, so registering the same list again
    gives the same ledger -- touches nothing else, and lists every
    known peer in its answer. *)
Theorem register_nodes_spec (nodes : list string) (self : Blockchain.t num) :
  (nodes = [] ->
   Node.register_nodes nodes self
   = Raised (HTTPException 400 "No nodes provided."))
  /\ (nodes <> [] ->
      exists total_nodes,
        Node.register_nodes nodes self
        = Returned
            (total_nodes,
             Blockchain.mk (Blockchain.chain self) (Blockchain.difficulty self)
               (Blockchain.mining_reward self) (Blockchain.mempool self)
               (list_to_set nodes ∪ Blockchain.nodes self)
               (Blockchain.balances self))
        /\ (forall address,
              address ∈ total_nodes
              <-> address ∈ nodes \/ address ∈ Blockchain.nodes self)
        /\ Node.register_nodes nodes
             (Blockchain.mk (Blockchain.chain self) (Blockchain.difficulty self)
                (Blockchain.mining_reward self) (Blockchain.mempool self)
                (list_to_set nodes ∪ Blockchain.nodes self)
                (Blockchain.balances self))
           = Returned
               (total_nodes,
                Blockchain.mk (Blockchain.chain self) (Blockchain.difficulty self)
                  (Blockchain.mining_reward self) (Blockchain.mempool self)
                  (list_to_set nodes ∪ Blockchain.nodes self)
                  (Blockchain.balances self))).
Proof.
  split.
  - intros ->. reflexivity.
  - intros Hne. unfold Node.register_nodes.
    assert (Hset : (list_to_set nodes : gset string) <> ∅).
    { destruct nodes as [|a rest]; [contradiction|]. simpl.
      intros Hempty. apply (not_elem_of_empty (C := gset string) a).
      rewrite <- Hempty. apply elem_of_union. left.
      now apply elem_of_singleton. }
    rewrite decide_False by exact Hset.
    rewrite !register_all, !list_to_set_elements_L. simpl.
    eexists. split_and!.
    + reflexivity.
    + intros address.
      rewrite elem_of_elements, elem_of_union, elem_of_list_to_set.
      reflexivity.
    + rewrite (assoc_L (∪) (list_to_set nodes)), (idemp_L (∪)). rewrite decide_False by exact Hset. reflexivity.
Qed.

End LedgerWire.

(** *** run_network.py *)



(** *** ConnectionManager *)

(** X19.  [disconnect] raises (ValueError) exactly for a websocket that
    is not connected; otherwise it takes one occurrence of it out of the
    list and leaves the others, so a websocket that was connected twice
    is still connected.  Disconnecting a websocket right after connecting
    it gives the list back, if it was not connected before. *)
Theorem disconnect_spec (websocket : nat) (active_connections : list nat) :
  (Node.ConnectionManager.disconnect websocket active_connections = None
   <-> websocket ∉ active_connections)
  /\ (forall rest,
        Node.ConnectionManager.disconnect websocket active_connections
        = Some rest ->
        active_connections ≡ₚ websocket :: rest)
  /\ (websocket ∉ active_connections ->
      Node.ConnectionManager.disconnect websocket
        (Node.ConnectionManager.connect websocket active_connections)
      = Some active_connections)
  /\ (exists rest,
        Node.ConnectionManager.disconnect websocket
          (Node.ConnectionManager.connect websocket
             (Node.ConnectionManager.connect websocket active_connections))
        = Some rest
        /\ websocket ∈ rest).
Proof.
  split_and!.
  - induction active_connections as [|c rest IH]; simpl.
    + split; [intros _; apply not_elem_of_nil | reflexivity].
    + destruct (decide (c = websocket)) as [->|Hne].
      * split; [discriminate | intros Hno; exfalso; apply Hno; left].
      * destruct (Node.ConnectionManager.disconnect websocket rest) eqn:E.
        -- split; [discriminate|]. intros Hno. exfalso.
           apply not_elem_of_cons in Hno as [_ Hno].
           apply IH in Hno. discriminate.
        -- split; [|reflexivity]. intros _.
           apply not_elem_of_cons. split; [congruence | now apply IH].
  - induction active_connections as [|c l IH]; intros rest; simpl;
      [discriminate|].
    destruct (decide (c = websocket)) as [->|Hne].
    + intros [= <-]. reflexivity.
    + destruct (Node.ConnectionManager.disconnect websocket l) as [l'|];
        [|discriminate].
      intros [= <-]. rewrite (IH l' eq_refl). apply Permutation_swap.
  - unfold Node.ConnectionManager.connect.
    induction active_connections as [|c l IH]; intros Hno; simpl.
    + rewrite decide_True by reflexivity. reflexivity.
    + apply not_elem_of_cons in Hno as [Hc Hno].
      rewrite decide_False by congruence. rewrite IH by exact Hno. reflexivity.
  - unfold Node.ConnectionManager.connect.
    induction active_connections as [|c l IH]; simpl.
    + rewrite decide_True by reflexivity. eexists. split; [reflexivity|].
      apply elem_of_cons. now left.
    + destruct (decide (c = websocket)) as [->|Hne].
      * eexists. split; [reflexivity|].
        apply elem_of_app. right. apply elem_of_cons. now left.
      * destruct IH as (rest & -> & Hin). eexists. split; [reflexivity|].
        now right.
Qed.

(** *** Digests are hexadecimal *)

Lemma nibble_hex (w i : N) : Wire.hex_digit (SHA256.nibble w i) = true.
Proof.
  unfold SHA256.nibble.
  assert (Hlt : (N.land (N.shiftr w (4 * i)) 15 < 16)%N).
  { change 15%N with (N.ones 4). rewrite N.land_ones.
    apply N.mod_lt. discriminate. }
  destruct (N.land (N.shiftr w (4 * i)) 15) as [|p]; [reflexivity|].
  do 5 (destruct p as [p|p|]; try reflexivity; try (exfalso; lia)).
Qed.

Lemma all_hex_append (s1 s2 : string) :
  Wire.all_hex (s1 +:+ s2) = Wire.all_hex s1 && Wire.all_hex s2.
Proof.
  induction s1 as [|c s1 IH]; [reflexivity|].
  change (String c s1 +:+ s2) with (String c (s1 +:+ s2)).
  cbn [Wire.all_hex]. rewrite IH. apply andb_assoc.
Qed.

Lemma hex8_all_hex (w : N) : Wire.all_hex (SHA256.hex8 w) = true.
Proof.
  unfold SHA256.hex8. cbn [Wire.all_hex]. rewrite !nibble_hex. reflexivity.
Qed.

Lemma hexdigest_all_hex (msg : list N) :
  Wire.all_hex (SHA256.hexdigest msg) = true.
Proof.
  unfold SHA256.hexdigest. destruct (SHA256.digest msg).
  rewrite !all_hex_append, !hex8_all_hex. reflexivity.
Qed.

(** X20.  Every hash [calculate_hash] computes and every txid
    [calculate_txid] computes is a string of exactly 64 lowercase
    hexadecimal digits; so a block built without a hash never has an
    empty one, and no block meets a difficulty above 64. *)
Theorem digests_are_64_hex_digits {num : Type} `{PyNumber num}
    (b : Block.t num) (sender recipient : string) (amount timestamp : num)
    (difficulty : Z) :
  String.length (Block.calculate_hash b) = 64%nat
  /\ Wire.all_hex (Block.calculate_hash b) = true
  /\ String.length (Transaction.calculate_txid sender recipient amount timestamp)
     = 64%nat
  /\ Wire.all_hex (Transaction.calculate_txid sender recipient amount timestamp)
     = true
  /\ ((64 < difficulty)%Z ->
      Blockchain.pow_done difficulty
        (Block.new (Block.index b) (Block.timestamp b) (Block.transactions b)
           (Block.previous_hash b) (Block.nonce b) None) = false).
Proof.
  split_and!.
  - apply hexdigest_length.
  - apply hexdigest_all_hex.
  - apply hexdigest_length.
  - apply hexdigest_all_hex.
  - intros Hd. apply pow_done_above_64; [exact Hd|]. apply hexdigest_length.
Qed.

(* ===================================================================== *)
(** ** The further properties at work *)
(* ===================================================================== *)




(** X5, witness: mining in Scenario A. *)
Lemma chain_only_grows_witness :
  (length (Blockchain.chain Scenario.fresh)
   <= length (Blockchain.chain Scenario.after_A))%nat
  /\ (length (Blockchain.chain Scenario.after_A)
      = length (Blockchain.chain Scenario.fresh) ->
      Blockchain.chain Scenario.after_A = Blockchain.chain Scenario.fresh)
  /\ ((forall new_chain,
         MineBlock 2 1700000001%Z 1700000015%Z "M1" <> ReplaceChain new_chain) ->
      Blockchain.chain Scenario.fresh `prefix_of` Blockchain.chain Scenario.after_A).
Proof.
  apply (chain_only_grows (MineBlock 2 1700000001 1700000015 "M1")%Z
           Scenario.fresh Scenario.after_A).
  vm_compute. reflexivity.
Defined.

(** X6, witness: the fresh ledger takes over the peer's mined chain. *)
Lemma settings_never_change_witness :
  Blockchain.difficulty
    (snd (Blockchain.replace_chain
            (Blockchain.chain Scenario.peer_after_mining) Scenario.strict))
  = Blockchain.difficulty Scenario.strict
  /\ Blockchain.mining_reward
       (snd (Blockchain.replace_chain
               (Blockchain.chain Scenario.peer_after_mining) Scenario.strict))
     = Blockchain.mining_reward Scenario.strict
  /\ ((forall address,
         ReplaceChain (Blockchain.chain Scenario.peer_after_mining)
         <> RegisterNode address) ->
      Blockchain.nodes
        (snd (Blockchain.replace_chain
                (Blockchain.chain Scenario.peer_after_mining) Scenario.strict))
      = Blockchain.nodes Scenario.strict).
Proof.
  apply (settings_never_change
           (ReplaceChain (Blockchain.chain Scenario.peer_after_mining))
           Scenario.strict).
  reflexivity.
Defined.

(** X7, witness: the ledger of Scenario A. *)
Lemma reachable_chain_sound_witness :
  (exists head, Blockchain.get_last_block Scenario.after_A = Some head)
  /\ Blockchain.validate_chain None Scenario.after_A = true
  /\ (forall fuel t_reward t_block miner_address,
        Blockchain.mine_block fuel t_reward t_block miner_address Scenario.after_A
        <> Raised IndexError)
  /\ (forall clk block_data,
        Node.receive_block clk block_data Scenario.after_A <> Raised IndexError).
Proof.
  apply (reachable_chain_sound Scenario.after_A).
  apply (reach_call _ (MineBlock 2 1700000001 1700000015 "M1")%Z Scenario.fresh);
    [apply reach_init | exact I | vm_compute; reflexivity].
Defined.

(** X8, witness: the chain of Scenario A, mined at difficulty 1. *)
Lemma mined_chain_shape_witness :
  (forall (i : nat) (b : Block.t Z),
     Blockchain.chain Scenario.after_A !! i = Some b -> Block.index b = Z.of_nat i)
  /\ (forall (i : nat) (b : Block.t Z),
        (1 <= i)%nat ->
        Blockchain.chain Scenario.after_A !! i = Some b ->
        (Blockchain.difficulty Scenario.after_A
         <= Z.of_nat (Spec.leading_zeros (Block.hash b)))%Z
        /\ exists txs reward_tx,
             Block.transactions b = txs ++ [reward_tx]
             /\ Transaction.sender reward_tx = "MINING"
             /\ Transaction.amount reward_tx
                = Blockchain.mining_reward Scenario.after_A).
Proof.
  apply (mined_chain_shape Scenario.after_A).
  apply (reach_call _ (MineBlock 2 1700000001 1700000015 "M1")%Z Scenario.fresh);
    [apply reach_init | exact I | vm_compute; reflexivity].
Defined.

(** X10, witness: the empty answer that claims a million blocks sits between
    two answers of the peer that mined a block; the fresh ledger keeps
    its one-block chain. *)
Lemma empty_chain_answer_blocks_consensus_witness :
  Node.resolve_conflicts Scenario.clk3
    ([Some Scenario.peer_answer]
     ++ Some Scenario.empty_answer :: [Some Scenario.peer_answer])
    Scenario.fresh
  = (false, Scenario.fresh).
Proof.
  apply (empty_chain_answer_blocks_consensus Scenario.clk3 Scenario.fresh
           [Some Scenario.peer_answer] [Some Scenario.peer_answer]
           Scenario.empty_answer).
  - vm_compute. reflexivity.
  - reflexivity.
  - vm_compute. reflexivity.
  - repeat constructor.
  - repeat constructor. vm_compute. discriminate.
Defined.

(** X11, witness: the same peer alone; the fresh ledger takes its chain. *)
Lemma resolve_conflicts_honest_witness :
  (Node.resolve_conflicts Scenario.clk3 [Some Scenario.peer_answer] Scenario.fresh
   = (false, Scenario.fresh)
   /\ Node.consensus Scenario.clk3 [Some Scenario.peer_answer] Scenario.fresh
      = (("Chain is authoritative", Blockchain.to_dict Scenario.fresh),
         Scenario.fresh)
   /\ forall c,
        c ∈ Node.candidates 0 Scenario.clk3 [Some Scenario.peer_answer] ->
        Spec.links_ok c ->
        (length c <= length (Blockchain.chain Scenario.fresh))%nat)
  \/ exists c,
       c ∈ Node.candidates 0 Scenario.clk3 [Some Scenario.peer_answer]
       /\ Spec.links_ok c
       /\ (length (Blockchain.chain Scenario.fresh) < length c)%nat
       /\ (forall c',
             c' ∈ Node.candidates 0 Scenario.clk3 [Some Scenario.peer_answer] ->
             Spec.links_ok c' -> (length c' <= length c)%nat)
       /\ Node.resolve_conflicts Scenario.clk3 [Some Scenario.peer_answer]
            Scenario.fresh
          = (true,
             Blockchain.mk c (Blockchain.difficulty Scenario.fresh)
               (Blockchain.mining_reward Scenario.fresh) []
               (Blockchain.nodes Scenario.fresh) (Blockchain.replay c))
       /\ fst (fst (Node.consensus Scenario.clk3 [Some Scenario.peer_answer]
                      Scenario.fresh))
          = "Chain replaced".
Proof.
  apply (resolve_conflicts_honest Scenario.clk3 [Some Scenario.peer_answer]
           Scenario.fresh).
  constructor; [apply get_chain_honest | constructor].
Defined.


Example resolve_conflicts_takes_peer_chain :
  fst (Node.resolve_conflicts Scenario.clk3 [Some Scenario.peer_answer]
         Scenario.fresh) = true
  /\ Blockchain.chain
       (snd (Node.resolve_conflicts Scenario.clk3 [Some Scenario.peer_answer]
               Scenario.fresh))
     = Blockchain.chain Scenario.peer_after_mining.
Proof. vm_compute. auto. Qed.

(** X13, witness: 1000 for "Eve", posted to the fresh ledger; "M1" mines. *)
Lemma posted_coinbase_mints_witness :
  exists pending,
    Node.new_transaction 1700000001%Z
      (Transaction.mk_model "MINING" "Eve" 1000%Z None None) Scenario.fresh
    = Returned ("Transaction will be added to the next block.", pending)
    /\ forall b self',
         Blockchain.mine_block 3 1700000002%Z 1700000003%Z "M1" pending
         = Returned (b, self') ->
         Blockchain.balance_of (Blockchain.balances self') "Eve"
         = num_add (Blockchain.balance_of (Blockchain.balances Scenario.fresh) "Eve")
                   1000%Z.
Proof.
  apply (posted_coinbase_mints 1700000001%Z "Eve" 1000%Z None None
           3 1700000002%Z 1700000003%Z "M1" Scenario.fresh).
  - reflexivity.
  - discriminate.
Defined.



Example supply_after_B :
  Supply.total (Blockchain.balances Scenario.after_B) = 20%Z.
Proof. vm_compute. reflexivity. Qed.

(** X16, witness: the ledger of Scenario B, sent and rebuilt with the default
    reward 10. *)
Lemma blockchain_round_trip_witness :
  Blockchain.from_dict 1700000060%Z 10%Z Scenario.clk2
    (Blockchain.to_dict Scenario.after_B)
  = Blockchain.mk (Blockchain.chain Scenario.after_B)
      (Blockchain.difficulty Scenario.after_B) 10%Z []
      (Blockchain.nodes Scenario.after_B)
      (Blockchain.replay (Blockchain.chain Scenario.after_B)).
Proof.
  apply (blockchain_round_trip 1700000060%Z 10%Z Scenario.clk2 Scenario.after_B).
  vm_compute. reflexivity.
Defined.
